(** * pcpyscraper: the price cache, the scraper, products and the build report

    A shallow embedding of [src/price_checker.py].

    - Python [float] is IEEE binary64, modelled by Rocq's primitive [float];
      [np.inf] is [infinity] and [sys.float_info.max] the largest finite
      double.
    - [str] is [string]; [str.split] on a one-character separator and list
      indexing (with its [IndexError]) are written out.
    - The sqlite table [prices (url, price, time)] is a list of rows in rowid
      order: the table has no key constraint, so duplicates can be stored and
      [fetchone] sees the first match.
    - [CURRENT_TIMESTAMP] has second precision; a timestamp is the number of
      seconds since the epoch, a [Z].
    - The browser, the clock and Python's [float(str)] parser are the
      environment [Env]; they are consulted through counters kept in the
      state, so that neither the clock nor a page is assumed constant.
    - Effects are a state-and-exception monad that also collects the trace of
      what a call does towards the outside (navigation, warnings, stdout, the
      csv file). *)

From Stdlib Require Import ZArith List String Ascii Bool Lia Floats.
Import ListNotations.


(** ** Python values and builtins *)

Module Py.

(** The exceptions the program can meet. *)
Inductive exn : Type :=
| IndexError
| AttributeError
| ValueError
| TypeError.

Inductive result (A : Type) : Type :=
| Ok (a : A)
| Raise (e : exn).

Arguments Ok {A} a.
Arguments Raise {A} e.

(** [np.inf]: numpy's [inf] is the builtin float infinity. *)
Definition inf : float := infinity.

(** [sys.float_info.max], 0x1.fffffffffffffp+1023. *)
Definition float_info_max : float := 0x1.fffffffffffffp+1023%float.

(** [s.split(sep)] for a one-character [sep]: one more segment than there are
    separators, empty segments kept. *)
Fixpoint split (sep : ascii) (s : string) : list string :=
  match s with
  | EmptyString => [EmptyString]
  | String c rest =>
      if Ascii.eqb c sep then EmptyString :: split sep rest
      else match split sep rest with
           | seg :: segs => String c seg :: segs
           | [] => [String c EmptyString]
           end
  end.

(** [l[i]] for [i >= 0]. *)
Definition index {A : Type} (l : list A) (i : nat) : result A :=
  match nth_error l i with
  | Some x => Ok x
  | None => Raise IndexError
  end.

(** Number of occurrences of a character, [s.count(c)]. *)
Fixpoint count (c : ascii) (s : string) : nat :=
  match s with
  | EmptyString => 0
  | String a rest => (if Ascii.eqb a c then 1 else 0) + count c rest
  end.

(** A [dict] with [str] keys, in insertion order. *)
Definition dict (V : Type) : Type := list (string * V).

(** [d[k] = v]: an existing key keeps its position. *)
Fixpoint dict_set {V : Type} (k : string) (v : V) (d : dict V) : dict V :=
  match d with
  | [] => [(k, v)]
  | (k', v') :: rest =>
      if String.eqb k' k then (k, v) :: rest else (k', v') :: dict_set k v rest
  end.

(** [d[k]], [None] standing for [KeyError]. *)
Fixpoint dict_get {V : Type} (k : string) (d : dict V) : option V :=
  match d with
  | [] => None
  | (k', v) :: rest => if String.eqb k' k then Some v else dict_get k rest
  end.

(** [d.values()]. *)
Definition values {V : Type} (d : dict V) : list V := map snd d.

End Py.

Import Py.

(** ** The prices table *)

Module Sql.

(** A row of [prices (url TEXT, price REAL, time TEXT)]. *)
Record row : Type := mkRow {
  url : string;
  price : float;
  time : Z
}.

Definition table : Type := list row.

(** The rows selected by [WHERE url=?]. *)
Definition where_url (u : string) (t : table) : table :=
  filter (fun r => String.eqb (url r) u) t.

(** [cursor.fetchone()]: the first row of the result, or [None]. *)
Definition fetchone {A : Type} (rows : list A) : option A := hd_error rows.

(** [SELECT price FROM prices WHERE url=?] followed by [fetchone]. *)
Definition select_price (u : string) (t : table) : option float :=
  fetchone (map price (where_url u t)).

(** [SELECT time FROM prices WHERE url=?] followed by [fetchone]. *)
Definition select_time (u : string) (t : table) : option Z :=
  fetchone (map time (where_url u t)).

(** [UPDATE prices SET price=?, time=? WHERE url=?], for a price that is
    not a NaN: sqlite binds a NaN as NULL, which a row of floats does not
    hold. *)
Definition update (p : float) (tm : Z) (u : string) (t : table) : table :=
  map (fun r => if String.eqb (url r) u then mkRow (url r) p tm else r) t.

(** [INSERT INTO prices VALUES (?,?,?)], for a price that is not a NaN, as
    for UPDATE. *)
Definition insert (u : string) (p : float) (tm : Z) (t : table) : table :=
  t ++ [mkRow u p tm].

(** The record of a URL, as the two SELECTs of [get_pricing] see it. *)
Definition lookup (u : string) (t : table) : option row :=
  fetchone (where_url u t).

(** Number of rows stored for a URL. *)
Definition rows_for (u : string) (t : table) : nat := List.length (where_url u t).

End Sql.

(** ** The environment and the effect monad *)

(** What the browser shows after [self.get(url)] and the explicit wait. *)
Record Page : Type := mkPage {
  (** did [span#pricing] appear within the 10 seconds *)
  pricing_present : bool;
  (** the [content] attribute of each element with id [pricing] *)
  pricing_content : list (option string);
  (** did [span.a-price-fraction] appear within the 10 seconds *)
  fraction_present : bool;
  (** the text of each element of class [a-price-whole] *)
  price_whole : list string;
  (** the text of each element of class [a-price-fraction] *)
  price_frac : list string
}.

Record Env : Type := mkEnv {
  (** the n-th reading of [CURRENT_TIMESTAMP] *)
  clock : nat -> Z;
  (** the page the n-th navigation lands on *)
  browse : nat -> string -> Page;
  (** Python's [float(s)] on a string; [None] is [ValueError] *)
  py_float : string -> option float
}.

(** What is written to stdout. *)
Inductive output : Type :=
| Line (s : string)
| Fmt (before : string) (x : float) (after : string)
| TimeoutMessage
| Prices (d : dict float).

Inductive event : Type :=
| Navigate (u : string)
| Warn (msg : string)
| Stdout (o : output)
| ToCsv (file : string) (frame : dict float).

(** The state: the committed table and how often the clock and the browser
    have been consulted. *)
Record World : Type := mkWorld {
  prices : Sql.table;
  ticks : nat;
  loads : nat
}.

Definition M (A : Type) : Type := World -> result A * World * list event.

Definition ret {A : Type} (a : A) : M A := fun w => (Ok a, w, []).

Definition raise {A : Type} (e : exn) : M A := fun w => (Raise e, w, []).

Definition bind {A B : Type} (m : M A) (k : A -> M B) : M B :=
  fun w =>
    match m w with
    | (Ok a, w1, t1) =>
        match k a w1 with
        | (r, w2, t2) => (r, w2, t1 ++ t2)
        end
    | (Raise e, w1, t1) => (Raise e, w1, t1)
    end.

Declare Scope py_scope.
Delimit Scope py_scope with py.
Notation "x <- m ;; k" := (bind m (fun x => k))
  (at level 61, m at next level, right associativity) : py_scope.
Notation "m ;; k" := (bind m (fun _ => k))
  (at level 61, right associativity) : py_scope.
Open Scope py_scope.

Definition lift {A : Type} (r : result A) : M A := fun w => (r, w, []).

Definition emit (e : event) : M unit := fun w => (Ok tt, w, [e]).

Definition print (o : output) : M unit := emit (Stdout o).

(** Reading the table, and executing a statement on it. *)
Definition query {A : Type} (q : Sql.table -> A) : M A :=
  fun w => (Ok (q (prices w)), w, []).

Definition execute (f : Sql.table -> Sql.table) : M unit :=
  fun w => (Ok tt, mkWorld (f (prices w)) (ticks w) (loads w), []).

(** [with self.sql_conn: body]: the connection as a context manager commits
    when the body ends normally (also through [return]) and rolls the
    statements of the body back when it ends with an exception, which it lets
    through.  Each block of the program ends its transaction, so the table at
    the entry of a block is the committed one. *)
Definition with_conn {A : Type} (body : M A) : M A :=
  fun w =>
    match body w with
    | (Ok a, w1, t) => (Ok a, w1, t)
    | (Raise e, w1, t) => (Raise e, mkWorld (prices w) (ticks w1) (loads w1), t)
    end.

(** [conn.commit()] inside a block: what was executed stays. *)
Definition commit : M unit := ret tt.

(** [x.round(2)] on a builtin [float].  The builtin type has [__round__]
    but no attribute [round] (numpy's scalar types have one), so the attribute
    lookup raises. *)
Definition float_round (x : float) (digits : nat) : M float :=
  raise AttributeError.

(** ** class PriceScraper *)

Section Program.

Variable env : Env.

(** [SELECT CURRENT_TIMESTAMP]: one more reading of the clock. *)
Definition current_timestamp : M Z :=
  fun w => (Ok (clock env (ticks w)), mkWorld (prices w) (S (ticks w)) (loads w), []).

(** [self.get(url)] followed by the explicit wait: the browser lands on a
    page. *)
Definition navigate (u : string) : M Page :=
  fun w => (Ok (browse env (loads w) u),
            mkWorld (prices w) (ticks w) (S (loads w)),
            [Navigate u]).

(** [float(s)] on the value of an attribute, which is [None] when the element
    lacks the attribute. *)
Definition float_of_attribute (a : option string) : M float :=
  match a with
  | None => raise TypeError
  | Some s =>
      match py_float env s with
      | Some x => ret x
      | None => raise ValueError
      end
  end.

(** [float(s)] on a string. *)
Definition float_of_str (s : string) : M float :=
  match py_float env s with
  | Some x => ret x
  | None => raise ValueError
  end.

Definition get_microcenter_price (u : string) : M float :=
  pg <- navigate u ;;
  (if pricing_present pg then ret tt else print TimeoutMessage) ;;
  match pricing_content pg with
  | [] => ret inf
  | content :: _ => float_of_attribute content
  end.

Definition get_amazon_price (u : option string) : M float :=
  match u with
  | None => ret inf
  | Some u =>
      pg <- navigate u ;;
      (if fraction_present pg then ret tt else print TimeoutMessage) ;;
      match price_whole pg, price_frac pg with
      | whole :: _, frac :: _ => float_of_str (whole ++ "." ++ frac)
      | _, _ => ret inf
      end
  end.

(** [url.split('/')[2].split('.')[1]]. *)
Definition domain_of (u : string) : result string :=
  match index (split "/" u) 2 with
  | Ok host => index (split "." host) 1
  | Raise e => Raise e
  end.

(** The first [with] block of [get_pricing]: [inl p] is the [return] of the
    cached price, [inr outdated] falls through to the fetch with
    [sql_entry_outdated = outdated].  A row without a time cannot come out of
    the two SELECTs; pandas would make it [NaT], whose comparison is false. *)
Definition check_cache (name domain u : string) : M (float + bool) :=
  with_conn (
    price <- query (Sql.select_price u) ;;
    time_last <- query (Sql.select_time u) ;;
    time_now <- current_timestamp ;;
    match price with
    | Some p =>
        if match time_last with
           | Some t => (time_now - t <=? 86400)%Z
           | None => false
           end
        then
          print (Line ("Price for " ++ name ++ " from " ++ domain
                       ++ " is still recent, skipping")) ;;
          ret (inl p)
        else ret (inr true)
    | None => ret (inr false)
    end).

(** The [match domain] statement. *)
Definition fetch_price (name domain u : string) : M float :=
  if String.eqb domain "microcenter" then get_microcenter_price u
  else if String.eqb domain "amazon" then get_amazon_price (Some u)
  else
    emit (Warn ("Could not get price for " ++ name ++ " from " ++ domain)) ;;
    ret float_info_max.

(** The second [with] block of [get_pricing].  In all three branches of the
    [match] the price is a builtin float ([float(...)], [np.inf],
    [sys.float_info.max]), so formatting the message stops at
    [price.round(2)], after the statement and before [commit]. *)
Definition record_price (name domain u : string) (outdated : bool) (p : float)
  : M unit :=
  with_conn (
    tm <- current_timestamp ;;
    (if outdated then
       execute (Sql.update p tm u) ;;
       r <- float_round p 2 ;;
       print (Fmt ("Updated price for " ++ name ++ " from " ++ domain ++ " ($")
                  r ")")
     else
       execute (Sql.insert u p tm) ;;
       r <- float_round p 2 ;;
       print (Fmt ("Added price for " ++ name ++ " from " ++ domain ++ " ($")
                  r ")")) ;;
    commit).

Definition get_pricing (name : string) (u : option string) : M float :=
  match u with
  | None => ret inf
  | Some u =>
      domain <- lift (domain_of u) ;;
      cached <- check_cache name domain u ;;
      match cached with
      | inl p => ret p
      | inr outdated =>
          p <- fetch_price name domain u ;;
          record_price name domain u outdated p ;;
          ret p
      end
  end.

(** ** class Product *)

Record Product : Type := mkProduct {
  name : string;
  links : dict (option string)
}.

(** The [for] loop of [best_price], from the current [min_price]. *)
Fixpoint best_price_loop (nm : string) (urls : list (option string))
  (min_price : float) : M float :=
  match urls with
  | [] => ret min_price
  | link :: rest =>
      p <- get_pricing nm link ;;
      best_price_loop nm rest (if (p <? min_price)%float then p else min_price)
  end.

Definition best_price (prod : Product) : M float :=
  min_price <- best_price_loop (name prod) (values (links prod)) inf ;;
  print (Fmt ("Best price for " ++ name prod ++ " is ") min_price "") ;;
  ret min_price.

(** ** class PCBuild *)

Record PCBuild : Type := mkBuild {
  build_name : string;
  parts : list Product;
  build_prices : dict float
}.

(** The [for] loop of [report_build]: [self.prices] and [toal_price]. *)
Fixpoint report_loop (ps : list Product) (seen : dict float) (total : float)
  : M (dict float * float) :=
  match ps with
  | [] => ret (seen, total)
  | part :: rest =>
      p <- best_price part ;;
      report_loop rest (dict_set (name part) p seen)
                  (total + (if (p <? inf)%float then p else 0))%float
  end.

(** [report_build] leaves the build with its [prices] filled in; the frame it
    writes has one row per key of [self.prices] and the row [Total], which
    [df.loc] adds or, for a part of that name, overwrites.  The total starts
    as the integer 0, numerically the float 0. *)
Definition report_build (b : PCBuild) (report_file : string) : M PCBuild :=
  print (Line ("Price breakdown for " ++ build_name b ++ ":")) ;;
  r <- report_loop (parts b) (build_prices b) 0%float ;;
  print (Prices (fst r)) ;;
  emit (ToCsv report_file (dict_set "Total" (snd r) (fst r))) ;;
  ret (mkBuild (build_name b) (parts b) (fst r)).

(** The prices a product obtains, one call of [get_pricing] per link. *)
Fixpoint obtained_prices (nm : string) (urls : list (option string))
  : M (list float) :=
  match urls with
  | [] => ret []
  | link :: rest =>
      p <- get_pricing nm link ;;
      ps <- obtained_prices nm rest ;;
      ret (p :: ps)
  end.

(** The best prices of the parts of a build, one call of [best_price] each. *)
Fixpoint best_prices (ps : list Product) : M (list float) :=
  match ps with
  | [] => ret []
  | part :: rest =>
      p <- best_price part ;;
      bs <- best_prices rest ;;
      ret (p :: bs)
  end.

End Program.

(** ** Vocabulary of the properties *)

(** The state after one more reading of the clock. *)
Definition tick (w : World) : World :=
  mkWorld (prices w) (S (ticks w)) (loads w).

(** The three components of a run. *)
Definition result_of {A : Type} (o : result A * World * list event) : result A :=
  fst (fst o).

Definition world_of {A : Type} (o : result A * World * list event) : World :=
  snd (fst o).

Definition trace_of {A : Type} (o : result A * World * list event) : list event :=
  snd o.

(** The cached record of a URL is fresh at the reading of the clock that the
    next call makes. *)
Definition fresh_hit (env : Env) (u : string) (w : World) : bool :=
  match Sql.lookup u (prices w) with
  | Some r => (clock env (ticks w) - Sql.time r <=? 86400)%Z
  | None => false
  end.

(** Does the table hold a record for the URL. *)
Definition has_record (u : string) (t : Sql.table) : bool :=
  match Sql.lookup u t with
  | Some _ => true
  | None => false
  end.

(** The message of a cache hit. *)
Definition still_recent (name domain : string) : event :=
  Stdout (Line ("Price for " ++ name ++ " from " ++ domain
                ++ " is still recent, skipping")).

(** A call extracts when it navigates or reaches the warning of the default
    case of the dispatch. *)
Definition is_dispatch (e : event) : bool :=
  match e with
  | Navigate _ | Warn _ => true
  | Stdout _ | ToCsv _ _ => false
  end.

Definition extracts (t : list event) : bool := existsb is_dispatch t.

(** Rows are written for URLs that went through the parsing of the domain at
    the start of [get_pricing]; a table all of whose URLs parse is
    well formed. *)
Definition well_formed (t : Sql.table) : Prop :=
  forall r, In r t -> exists d, domain_of (Sql.url r) = Ok d.

(** The two sentinels of the program. *)
Definition sentinel (x : float) : Prop := x = inf \/ x = float_info_max.

(** A price strictly below both sentinels. *)
Definition real_price (x : float) : bool := (x <? float_info_max)%float.

(** One step of the loop of [best_price]. *)
Definition lower (min_price p : float) : float :=
  if (p <? min_price)%float then p else min_price.

(** One step of the accumulation of [report_build]. *)
Definition add_resolved (total p : float) : float :=
  (total + (if (p <? inf)%float then p else 0))%float.

(** The message that closes [best_price]. *)
Definition best_message (prod : Product) (m : float) : event :=
  Stdout (Fmt ("Best price for " ++ name prod ++ " is ") m "").

(** The warning of the default case of the dispatch. *)
Definition could_not_get (nm domain : string) : event :=
  Warn ("Could not get price for " ++ nm ++ " from " ++ domain).

(** ** A concrete environment

    A clock that starts at second 100000 and advances by one second per
    reading; a browser on whose pages nothing is found except, at
    [example_gpu], the Micro Center price of the repository's own test. *)

Definition example_gpu : string :=
  "https://www.microcenter.com/product/639544/msi-nvidia-geforce-rtx-3080".

Definition example_cpu : string :=
  "https://www.amazon.com/Intel-i7-13700K-Desktop-Processor-P-cores/dp/B0BCF57FL5".

Definition example_other : string := "https://www.newegg.com/p/N82E16819118412".

Definition example_env : Env :=
  mkEnv (fun n => 100000 + Z.of_nat n)%Z
        (fun _ u =>
           if String.eqb u example_gpu
           then mkPage true [Some "779.99"%string] false [] []
           else mkPage false [] false [] [])
        (fun s => if String.eqb s "779.99"%string
                  then Some 0x1.85feb851eb852p+9%float else None).

Definition empty_world : World := mkWorld [] 0 0.

(** A Micro Center page on which no price element is found. *)
Definition example_gone : string :=
  "https://www.microcenter.com/product/000000/discontinued".

(** Both retailers of the processor checked 1000 seconds before the first
    reading of the clock. *)
Definition cached_world : World :=
  mkWorld [Sql.mkRow example_gpu 10 99000; Sql.mkRow example_cpu 7.5 99000] 0 0.


(** A record 100000 seconds old at the first reading of the clock. *)
Definition stale_world : World :=
  mkWorld [Sql.mkRow example_gpu 5 0] 0 0.

(** The price of the default case of the dispatch, cached 1000 seconds before
    the first reading of the clock. *)
Definition unavailable_world : World :=
  mkWorld [Sql.mkRow example_other float_info_max 99000] 0 0.

(** A price of 5.0 cached for [example_gpu]. *)
Definition five_world : World :=
  mkWorld [Sql.mkRow example_gpu 5 99000] 0 0.

(** Retailer prices 10.0, absent and 7.5 in [cached_world]. *)
Definition example_product : Product :=
  mkProduct "Intel Core i7-13700K"
            [("microcenter"%string, Some example_gpu);
             ("newegg"%string, None);
             ("amazon"%string, Some example_cpu)].

(** A part with one cached retailer and a part without any link, as the
    graphics card of [main]. *)
Definition example_build : PCBuild :=
  mkBuild "Intel Build"
          [mkProduct "MSI RTX 3080" [("microcenter"%string, Some example_gpu)];
           mkProduct "EVGA Nvidia GTX 3080Ti FTW3 Ultra" []]
          [].

(** A part sold only by a retailer outside the dispatch. *)
Definition unavailable_build : PCBuild :=
  mkBuild "Other Build"
          [mkProduct "AMD Ryzen 7" [("newegg"%string, Some example_other)]]
          [].

(** ** Vocabulary for the rest of the program *)

(** Does a run write the report. *)
Definition is_csv (e : event) : bool :=
  match e with
  | ToCsv _ _ => true
  | Navigate _ | Warn _ | Stdout _ => false
  end.

Definition writes_csv (t : list event) : bool := existsb is_csv t.

(** The same environment with every explicit wait running into its
    timeout; what is on the pages is as before. *)
Definition timed_out (env : Env) : Env :=
  mkEnv (clock env)
        (fun n u =>
           mkPage false (pricing_content (browse env n u))
                  false (price_whole (browse env n u))
                  (price_frac (browse env n u)))
        (py_float env).

(** [k in d]. *)
Definition has_key {V : Type} (k : string) (d : dict V) : bool :=
  match dict_get k d with
  | Some _ => true
  | None => false
  end.

(** A cached retailer, then one outside the dispatch, then one more. *)
Definition mixed_product : Product :=
  mkProduct "MSI RTX 3080"
            [("microcenter"%string, Some example_gpu);
             ("newegg"%string, Some example_other);
             ("amazon"%string, Some example_cpu)].

(** A product without a URL at any of its retailers. *)
Definition unlisted_product : Product :=
  mkProduct "EVGA Nvidia GTX 3080Ti FTW3 Ultra"
            [("microcenter"%string, None); ("amazon"%string, None)].

(** A build one of whose parts is called as the last row of the report. *)
Definition total_build : PCBuild :=
  mkBuild "Naming"
          [mkProduct "Total" [("microcenter"%string, Some example_gpu)];
           mkProduct "Case" [("amazon"%string, Some example_cpu)]]
          [].

(** ** Floats: the order behind [<] *)

Section FloatOrder.

Local Open Scope float_scope.

Lemma SFcompare_Lt_trans x y z :
  SFcompare x y = Some Lt -> SFcompare y z = Some Lt -> SFcompare x z = Some Lt.
Proof.
  destruct x as [sx|sx| |sx mx ex], y as [sy|sy| |sy my ey],
           z as [sz|sz| |sz mz ez];
    simpl; try discriminate;
    repeat match goal with s : bool |- _ => destruct s end;
    simpl; try discriminate; try reflexivity;
    rewrite ?Pos.compare_cont_spec; simpl;
    destruct (Z.compare_spec ex ey), (Z.compare_spec ey ez),
             (Z.compare_spec ex ez);
    try discriminate; try reflexivity; try lia; subst;
    destruct (Pos.compare_spec mx my), (Pos.compare_spec my mz),
             (Pos.compare_spec mx mz);
    simpl; try discriminate; try reflexivity; try lia.
Qed.

Lemma SFcompare_Lt_cotrans x y z :
  SFcompare x z = Some Lt -> y <> S754_nan ->
  SFcompare x y = Some Lt \/ SFcompare y z = Some Lt.
Proof.
  destruct x as [sx|sx| |sx mx ex], y as [sy|sy| |sy my ey],
           z as [sz|sz| |sz mz ez];
    simpl; try discriminate; try congruence;
    repeat match goal with s : bool |- _ => destruct s end;
    simpl; try discriminate; auto;
    rewrite ?Pos.compare_cont_spec; simpl;
    destruct (Z.compare_spec ex ey), (Z.compare_spec ey ez),
             (Z.compare_spec ex ez);
    try discriminate; auto; try lia; subst;
    destruct (Pos.compare_spec mx my), (Pos.compare_spec my mz),
             (Pos.compare_spec mx mz);
    simpl; try discriminate; auto; try lia.
Qed.

Lemma SFltb_Lt x y : SFltb x y = true <-> SFcompare x y = Some Lt.
Proof.
  unfold SFltb. destruct (SFcompare x y) as [[]|]; split; congruence.
Qed.

Lemma SFcompare_Lt_not_nan x y : SFcompare x y = Some Lt -> x <> S754_nan.
Proof. intros H E. subst x. discriminate H. Qed.

Lemma is_nan_false_spec x : is_nan x = false -> Prim2SF x <> S754_nan.
Proof.
  unfold is_nan. rewrite eqb_spec. intros H E. rewrite E in H. discriminate H.
Qed.

Lemma not_nan_is_nan_false x : Prim2SF x <> S754_nan -> is_nan x = false.
Proof.
  unfold is_nan. rewrite eqb_spec. unfold SFeqb.
  destruct (Prim2SF x) as [s|s| |s m e]; simpl; try congruence.
  - destruct s; reflexivity.
  - rewrite Z.compare_refl, Pos.compare_cont_refl. destruct s; reflexivity.
Qed.

Lemma SFcompare_refl_not_Lt x : SFcompare x x <> Some Lt.
Proof.
  destruct x as [s|s| |s m e]; simpl; try discriminate.
  - destruct s; discriminate.
  - rewrite Z.compare_refl, Pos.compare_cont_refl. destruct s; discriminate.
Qed.

Lemma ltb_irrefl x : (x <? x) = false.
Proof.
  destruct (x <? x) eqn:E; [|reflexivity].
  rewrite ltb_spec, SFltb_Lt in E. now apply SFcompare_refl_not_Lt in E.
Qed.

Lemma ltb_trans x y z :
  (x <? y) = true -> (y <? z) = true -> (x <? z) = true.
Proof.
  rewrite !ltb_spec, !SFltb_Lt. apply SFcompare_Lt_trans.
Qed.

Lemma ltb_cotrans x y z :
  (x <? z) = true -> is_nan y = false -> (x <? y) = true \/ (y <? z) = true.
Proof.
  rewrite !ltb_spec, !SFltb_Lt. intros H N.
  apply SFcompare_Lt_cotrans; [exact H | now apply is_nan_false_spec].
Qed.

Lemma ltb_is_nan_l x y : (x <? y) = true -> is_nan x = false.
Proof.
  rewrite ltb_spec, SFltb_Lt. intros H.
  apply not_nan_is_nan_false. eapply SFcompare_Lt_not_nan; eassumption.
Qed.

End FloatOrder.

(** ** Strings: [split] and the parsing of the domain *)

Lemma split_not_nil sep s : split sep s <> [].
Proof.
  destruct s as [|c s]; simpl; [discriminate|].
  destruct (Ascii.eqb c sep); [discriminate|].
  destruct (split sep s); discriminate.
Qed.

Lemma split_length sep s : List.length (split sep s) = S (count sep s).
Proof.
  induction s as [|c s IH]; simpl; [reflexivity|].
  destruct (Ascii.eqb c sep); simpl; [now rewrite IH|].
  destruct (split sep s) as [|seg segs] eqn:E; simpl in *; [discriminate IH|].
  exact IH.
Qed.

Lemma index_out_of_range (A : Type) (l : list A) i :
  List.length l <= i -> index l i = Raise IndexError.
Proof.
  intros H. unfold index.
  now destruct (nth_error l i) eqn:E; [apply nth_error_None in H; congruence|].
Qed.

Lemma index_in_range (A : Type) (l : list A) i :
  i < List.length l -> exists x, index l i = Ok x.
Proof.
  intros H. unfold index.
  destruct (nth_error l i) as [x|] eqn:E; [now exists x|].
  apply nth_error_None in E. lia.
Qed.

(** The domain parses exactly when the URL has two slashes and its third
    segment a dot. *)
Lemma domain_of_raises u :
  (count "/" u < 2 \/
   exists host, nth_error (split "/" u) 2 = Some host /\ count "." host = 0) ->
  domain_of u = Raise IndexError.
Proof.
  unfold domain_of. intros [H | (host & Hh & Hd)].
  - rewrite index_out_of_range; [reflexivity|]. rewrite split_length. lia.
  - unfold index at 1. rewrite Hh.
    apply index_out_of_range. rewrite split_length. lia.
Qed.

Lemma domain_of_ok u host :
  nth_error (split "/" u) 2 = Some host -> 0 < count "." host ->
  exists d, domain_of u = Ok d.
Proof.
  intros Hh Hd. unfold domain_of, index at 1. rewrite Hh.
  apply index_in_range. rewrite split_length. lia.
Qed.

(** ** The cache check and the recording of a price *)

Lemma select_price_lookup u t :
  Sql.select_price u t = option_map Sql.price (Sql.lookup u t).
Proof.
  unfold Sql.select_price, Sql.lookup, Sql.fetchone.
  now destruct (Sql.where_url u t).
Qed.

Lemma select_time_lookup u t :
  Sql.select_time u t = option_map Sql.time (Sql.lookup u t).
Proof.
  unfold Sql.select_time, Sql.lookup, Sql.fetchone.
  now destruct (Sql.where_url u t).
Qed.

Lemma lookup_In u t r : Sql.lookup u t = Some r -> In r t /\ Sql.url r = u.
Proof.
  unfold Sql.lookup, Sql.fetchone, Sql.where_url. intros H.
  destruct (filter _ t) as [|r' rs] eqn:E; [discriminate|].
  injection H as ->.
  assert (I : In r (filter (fun r => String.eqb (Sql.url r) u) t))
    by (rewrite E; now left).
  apply filter_In in I. destruct I as [I Q].
  split; [exact I | now apply String.eqb_eq].
Qed.

(** With at most one row per URL, the record the SELECTs see is the row of
    the URL. *)
Lemma lookup_the_row u t r :
  In r t -> Sql.url r = u -> Sql.rows_for u t <= 1 -> Sql.lookup u t = Some r.
Proof.
  unfold Sql.rows_for, Sql.lookup, Sql.fetchone, Sql.where_url.
  intros I U N.
  assert (F : In r (filter (fun x => String.eqb (Sql.url x) u) t)).
  { apply filter_In. split; [exact I | now apply String.eqb_eq]. }
  destruct (filter _ t) as [|a [|b rest]]; simpl in *.
  - destruct F.
  - destruct F as [->|[]]. reflexivity.
  - lia.
Qed.

Section Cache.

Variable env : Env.

Lemma check_cache_fresh name d u w r :
  Sql.lookup u (prices w) = Some r ->
  (clock env (ticks w) - Sql.time r <= 86400)%Z ->
  check_cache env name d u w
  = (Ok (inl (Sql.price r)), tick w, [still_recent name d]).
Proof.
  intros L F.
  unfold check_cache, with_conn, bind, query, current_timestamp, print, emit, ret.
  cbn. rewrite select_price_lookup, select_time_lookup, L. cbn.
  apply Z.leb_le in F. rewrite F. reflexivity.
Qed.

Lemma check_cache_stale name d u w r :
  Sql.lookup u (prices w) = Some r ->
  (86400 < clock env (ticks w) - Sql.time r)%Z ->
  check_cache env name d u w = (Ok (inr true), tick w, []).
Proof.
  intros L F.
  unfold check_cache, with_conn, bind, query, current_timestamp, print, emit, ret.
  cbn. rewrite select_price_lookup, select_time_lookup, L. cbn.
  apply Z.leb_gt in F. rewrite F. reflexivity.
Qed.

Lemma check_cache_absent name d u w :
  Sql.lookup u (prices w) = None ->
  check_cache env name d u w = (Ok (inr false), tick w, []).
Proof.
  intros L.
  unfold check_cache, with_conn, bind, query, current_timestamp, print, emit, ret.
  cbn. rewrite select_price_lookup, select_time_lookup, L. reflexivity.
Qed.

(** Without a fresh record the check falls through, with
    [sql_entry_outdated] telling whether a record exists. *)
Lemma check_cache_miss name d u w :
  fresh_hit env u w = false ->
  check_cache env name d u w
  = (Ok (inr (has_record u (prices w))), tick w, []).
Proof.
  unfold fresh_hit, has_record. intros F.
  destruct (Sql.lookup u (prices w)) as [r|] eqn:L.
  - apply check_cache_stale with (r := r); [exact L | now apply Z.leb_gt].
  - now apply check_cache_absent.
Qed.

(** The statement of the second block is executed and then undone: the
    message is never formatted, the block is left by the exception and the
    table is the one the block started from. *)
Lemma record_price_raises name d u outdated p w :
  record_price env name d u outdated p w = (Raise AttributeError, tick w, []).
Proof.
  unfold record_price, with_conn, bind, current_timestamp, execute,
    float_round, raise.
  destruct outdated; reflexivity.
Qed.

(** Every branch of the dispatch starts with a navigation or the warning, and
    none touches the table. *)
Lemma fetch_price_dispatches name d u w :
  exists e t,
    trace_of (fetch_price env name d u w) = e :: t /\ is_dispatch e = true.
Proof.
  unfold fetch_price.
  destruct (String.eqb d "microcenter").
  - unfold get_microcenter_price, bind, navigate, trace_of. cbn.
    match goal with |- context [match ?x with _ => _ end] => destruct x as [[? ?] ?] end.
    cbn. eauto.
  - destruct (String.eqb d "amazon").
    + unfold get_amazon_price, bind, navigate, trace_of. cbn.
      match goal with |- context [match ?x with _ => _ end] => destruct x as [[? ?] ?] end.
      cbn. eauto.
    + unfold bind, emit, ret, trace_of. cbn. eauto.
Qed.

End Cache.

(** ** [get_pricing] *)

Section GetPricing.

Variable env : Env.

Lemma get_pricing_hit name u d r w :
  domain_of u = Ok d ->
  Sql.lookup u (prices w) = Some r ->
  (clock env (ticks w) - Sql.time r <= 86400)%Z ->
  get_pricing env name (Some u) w
  = (Ok (Sql.price r), tick w, [still_recent name d]).
Proof.
  intros D L F. unfold get_pricing, bind, lift. rewrite D.
  rewrite (check_cache_fresh env name d u w r L F). reflexivity.
Qed.

(** Without a fresh record the call is the fetch followed by the recording of
    what was fetched. *)
Lemma get_pricing_miss name u d w :
  domain_of u = Ok d ->
  fresh_hit env u w = false ->
  get_pricing env name (Some u) w
  = (p <- fetch_price env name d u ;;
     record_price env name d u (has_record u (prices w)) p ;;
     ret p) (tick w).
Proof.
  intros D F. unfold get_pricing. unfold bind at 1. unfold lift. rewrite D.
  unfold bind at 1. rewrite (check_cache_miss env name d u w F).
  cbn beta iota.
  destruct ((p <- fetch_price env name d u ;;
             record_price env name d u (has_record u (prices w)) p ;;
             ret p) (tick w)) as [[r w'] t].
  reflexivity.
Qed.

(** A call that does not find a fresh record does not return: whatever the
    fetch yields, the recording raises. *)
Lemma get_pricing_miss_raises name u d w :
  domain_of u = Ok d ->
  fresh_hit env u w = false ->
  exists e, result_of (get_pricing env name (Some u) w) = Raise e.
Proof.
  intros D F. rewrite (get_pricing_miss name u d w D F).
  unfold bind at 1.
  destruct (fetch_price env name d u (tick w)) as [[[p|e] w1] t1].
  - unfold bind. rewrite record_price_raises. cbn. eauto.
  - cbn. eauto.
Qed.

Lemma get_pricing_miss_extracts name u d w :
  domain_of u = Ok d ->
  fresh_hit env u w = false ->
  extracts (trace_of (get_pricing env name (Some u) w)) = true.
Proof.
  intros D F. rewrite (get_pricing_miss name u d w D F).
  destruct (fetch_price_dispatches env name d u (tick w)) as (e & t & T & E).
  unfold bind at 1.
  destruct (fetch_price env name d u (tick w)) as [[[p|x] w1] t1];
    unfold trace_of in T; cbn in T; subst t1.
  - match goal with |- context [match ?x with _ => _ end] =>
      destruct x as [[? ?] ?] end.
    unfold extracts, trace_of. cbn. now rewrite E.
  - unfold extracts, trace_of. cbn. now rewrite E.
Qed.

(** No call changes the committed table. *)
Lemma fetch_price_prices name d u w :
  prices (world_of (fetch_price env name d u w)) = prices w.
Proof.
  unfold fetch_price, get_microcenter_price, get_amazon_price,
    float_of_attribute, float_of_str, bind, navigate, print, emit, ret, raise,
    world_of.
  destruct (String.eqb d "microcenter"); [|destruct (String.eqb d "amazon")];
    cbn; [| |reflexivity].
  - destruct (pricing_present (browse env (loads w) u));
      destruct (pricing_content (browse env (loads w) u)) as [|[c|] cs];
      cbn; try reflexivity; destruct (py_float env c); reflexivity.
  - destruct (fraction_present (browse env (loads w) u));
      destruct (price_whole (browse env (loads w) u)) as [|a ws];
      destruct (price_frac (browse env (loads w) u)) as [|b fs];
      cbn; try reflexivity; destruct (py_float env _); reflexivity.
Qed.

Lemma get_pricing_prices name u w :
  prices (world_of (get_pricing env name u w)) = prices w.
Proof.
  destruct u as [u|]; [|reflexivity].
  destruct (domain_of u) as [d|e] eqn:D.
  2:{ unfold get_pricing, bind, lift. rewrite D. reflexivity. }
  destruct (fresh_hit env u w) eqn:F.
  - unfold fresh_hit in F.
    destruct (Sql.lookup u (prices w)) as [r|] eqn:L; [|discriminate].
    apply Z.leb_le in F. now rewrite (get_pricing_hit name u d r w D L F).
  - rewrite (get_pricing_miss name u d w D F). unfold bind at 1.
    pose proof (fetch_price_prices name d u (tick w)) as P.
    destruct (fetch_price env name d u (tick w)) as [[[p|x] w1] t1];
      unfold world_of in P; cbn in P.
    + unfold bind. rewrite record_price_raises. cbn. exact P.
    + cbn. exact P.
Qed.

(** The only way a call on a URL returns is the cache hit. *)
Lemma get_pricing_returns_cached name u w p w' t :
  get_pricing env name (Some u) w = (Ok p, w', t) ->
  exists r,
    Sql.lookup u (prices w) = Some r /\
    (clock env (ticks w) - Sql.time r <= 86400)%Z /\
    p = Sql.price r.
Proof.
  intros G.
  destruct (domain_of u) as [d|e] eqn:D.
  2:{ unfold get_pricing, bind, lift in G. rewrite D in G. discriminate G. }
  destruct (fresh_hit env u w) eqn:F.
  - unfold fresh_hit in F.
    destruct (Sql.lookup u (prices w)) as [r|] eqn:L; [|discriminate].
    apply Z.leb_le in F. exists r.
    rewrite (get_pricing_hit name u d r w D L F) in G.
    injection G as <- _ _. auto.
  - destruct (get_pricing_miss_raises name u d w D F) as [e E].
    rewrite G in E. discriminate E.
Qed.

Lemma get_pricing_well_formed name u w :
  well_formed (prices w) ->
  well_formed (prices (world_of (get_pricing env name u w))).
Proof. now rewrite get_pricing_prices. Qed.

End GetPricing.

(** ** The statements on the table *)

Lemma where_url_update p tm u v t :
  List.length (Sql.where_url v (Sql.update p tm u t))
  = List.length (Sql.where_url v t).
Proof.
  unfold Sql.where_url, Sql.update.
  induction t as [|r t IH]; simpl; [reflexivity|].
  destruct (String.eqb (Sql.url r) u); simpl;
    destruct (String.eqb (Sql.url r) v); simpl; now rewrite IH.
Qed.

(** UPDATE keeps the number of rows of every URL. *)
Lemma rows_for_update p tm u v t :
  Sql.rows_for v (Sql.update p tm u t) = Sql.rows_for v t.
Proof. apply where_url_update. Qed.

(** INSERT adds one row, for its URL. *)
Lemma rows_for_insert p tm u v t :
  Sql.rows_for v (Sql.insert u p tm t)
  = Sql.rows_for v t + (if String.eqb u v then 1 else 0).
Proof.
  unfold Sql.rows_for, Sql.where_url, Sql.insert.
  rewrite filter_app, length_app. simpl.
  now destruct (String.eqb u v).
Qed.

Lemma rows_for_has_record u t :
  has_record u t = false <-> Sql.rows_for u t = 0.
Proof.
  unfold has_record, Sql.rows_for, Sql.lookup, Sql.fetchone.
  destruct (Sql.where_url u t); simpl; split; congruence.
Qed.

Lemma well_formed_nil : well_formed [].
Proof. intros r []. Qed.

Lemma well_formed_insert u d p tm t :
  domain_of u = Ok d -> well_formed t -> well_formed (Sql.insert u p tm t).
Proof.
  intros D W r I. unfold Sql.insert in I. apply in_app_or in I.
  destruct I as [I|[<-|[]]]; [now apply W | now exists d].
Qed.

Lemma well_formed_update u p tm t :
  well_formed t -> well_formed (Sql.update p tm u t).
Proof.
  intros W r I. unfold Sql.update in I. apply in_map_iff in I.
  destruct I as (r0 & E & I). destruct (W r0 I) as [d D].
  destruct (String.eqb (Sql.url r0) u); subst r; now exists d.
Qed.

(** ** The cache policy *)

Section Policy.

Variable env : Env.

(** C1. For every URL with a record in a well-formed prices table whose
    timestamp is at most 86400 seconds before the reading of the clock,
    [get_pricing] returns the price of that record; it only reads the clock
    and prints the message of the hit: it does not navigate and does not reach
    the dispatch. *)
Theorem fresh_record_is_returned name u r w :
  well_formed (prices w) ->
  Sql.lookup u (prices w) = Some r ->
  (clock env (ticks w) - Sql.time r <= 86400)%Z ->
  exists d,
    domain_of u = Ok d /\
    get_pricing env name (Some u) w
    = (Ok (Sql.price r), tick w, [still_recent name d]) /\
    extracts (trace_of (get_pricing env name (Some u) w)) = false /\
    loads (world_of (get_pricing env name (Some u) w)) = loads w.
Proof.
  intros WF L F.
  destruct (lookup_In _ _ _ L) as [I U].
  destruct (WF r I) as [d D]. rewrite U in D.
  exists d. split; [exact D|].
  rewrite (get_pricing_hit env name u d r w D L F).
  repeat split.
Qed.


(** C9. On a fresh cache hit the prices table after the call is the table
    before it: nothing is inserted, updated or deleted for any URL. *)
Theorem fresh_hit_leaves_table name u d r w :
  domain_of u = Ok d ->
  Sql.lookup u (prices w) = Some r ->
  (clock env (ticks w) - Sql.time r <= 86400)%Z ->
  prices (world_of (get_pricing env name (Some u) w)) = prices w /\
  forall v, Sql.where_url v (prices (world_of (get_pricing env name (Some u) w)))
            = Sql.where_url v (prices w).
Proof.
  intros D L F. rewrite (get_pricing_hit env name u d r w D L F).
  split; reflexivity.
Qed.

(** C10. A URL string with fewer than two slashes, or whose third
    slash-separated segment has no dot, makes [get_pricing] raise
    [IndexError] while it parses the domain: the state is untouched (the clock
    was not read, the browser not used) and nothing was emitted. *)
Theorem malformed_url_raises_IndexError name u w :
  (count "/" u < 2 \/
   exists host, nth_error (split "/" u) 2 = Some host /\ count "." host = 0) ->
  get_pricing env name (Some u) w = (Raise IndexError, w, []).
Proof.
  intros H. unfold get_pricing, bind, lift.
  now rewrite (domain_of_raises u H).
Qed.

End Policy.

Lemma well_formed_examples :
  well_formed (prices cached_world).
Proof.
  intros r [<-|[<-|[]]]; eexists; vm_compute; reflexivity.
Defined.

Lemma fresh_record_is_returned_witness :
  well_formed (prices cached_world) /\
  Sql.lookup example_cpu (prices cached_world)
  = Some (Sql.mkRow example_cpu 7.5 99000) /\
  (clock example_env (ticks cached_world) - 99000 <= 86400)%Z /\
  exists d,
    domain_of example_cpu = Ok d /\
    get_pricing example_env "cpu" (Some example_cpu) cached_world
    = (Ok 7.5%float, tick cached_world, [still_recent "cpu" d]) /\
    extracts (trace_of (get_pricing example_env "cpu" (Some example_cpu)
                                    cached_world)) = false /\
    loads (world_of (get_pricing example_env "cpu" (Some example_cpu)
                                 cached_world)) = loads cached_world.
Proof.
  split; [exact well_formed_examples|].
  split; [vm_compute; reflexivity|].
  split; [vm_compute; discriminate|].
  apply (fresh_record_is_returned example_env "cpu" example_cpu
           (Sql.mkRow example_cpu 7.5 99000) cached_world).
  - exact well_formed_examples.
  - vm_compute; reflexivity.
  - vm_compute; discriminate.
Defined.


Lemma fresh_hit_leaves_table_witness :
  domain_of example_gpu = Ok "microcenter"%string /\
  Sql.lookup example_gpu (prices cached_world)
  = Some (Sql.mkRow example_gpu 10 99000) /\
  (clock example_env (ticks cached_world) - 99000 <= 86400)%Z /\
  prices (world_of (get_pricing example_env "gpu" (Some example_gpu)
                                cached_world))
  = prices cached_world.
Proof.
  split; [vm_compute; reflexivity|].
  split; [vm_compute; reflexivity|].
  split; [vm_compute; discriminate|].
  apply (fresh_hit_leaves_table example_env "gpu" example_gpu
           "microcenter" (Sql.mkRow example_gpu 10 99000) cached_world).
  - vm_compute; reflexivity.
  - vm_compute; reflexivity.
  - vm_compute; discriminate.
Defined.

Lemma malformed_url_raises_IndexError_witness :
  (exists host,
      nth_error (split "/" "microcenter.com/product/639544") 2 = Some host /\
      count "." host = 0) /\
  count "/" "www.amazon.com" < 2 /\
  get_pricing example_env "gpu" (Some "microcenter.com/product/639544"%string)
              cached_world
  = (Raise IndexError, cached_world, []) /\
  get_pricing example_env "cpu" (Some "www.amazon.com"%string) cached_world
  = (Raise IndexError, cached_world, []).
Proof.
  split; [exists "639544"%string; split; vm_compute; reflexivity|].
  split; [vm_compute; lia|].
  split.
  - apply (malformed_url_raises_IndexError example_env "gpu"
             "microcenter.com/product/639544" cached_world).
    right. exists "639544"%string. split; vm_compute; reflexivity.
  - apply (malformed_url_raises_IndexError example_env "cpu"
             "www.amazon.com" cached_world).
    left. vm_compute; lia.
Defined.

(** ** [Product.best_price] *)

Section RunningMinimum.

Local Open Scope float_scope.

Lemma lower_not_nan acc p : is_nan acc = false -> is_nan (lower acc p) = false.
Proof.
  intros N. unfold lower. destruct (p <? acc) eqn:E; [|exact N].
  now apply ltb_is_nan_l with (y := acc).
Qed.

(** Nothing the loop has seen, and not the value it started from, is below
    what it ends with. *)
Lemma fold_lower_bound ps : forall acc,
  is_nan acc = false ->
  (acc <? fold_left lower ps acc) = false /\
  is_nan (fold_left lower ps acc) = false /\
  forall p, In p ps -> (p <? fold_left lower ps acc) = false.
Proof.
  induction ps as [|q ps IH]; intros acc N; simpl.
  - split; [apply ltb_irrefl|]. split; [exact N|]. intros p [].
  - destruct (IH (lower acc q) (lower_not_nan acc q N)) as (A & M & B).
    set (m := fold_left lower ps (lower acc q)) in *.
    assert (Hacc : (acc <? m) = false).
    { unfold lower in A. destruct (q <? acc) eqn:E; [|exact A].
      destruct (acc <? m) eqn:G; [|reflexivity].
      now rewrite (ltb_trans q acc m E G) in A. }
    split; [exact Hacc|]. split; [exact M|].
    intros p [<-|I]; [|now apply B].
    unfold lower in A. destruct (q <? acc) eqn:E; [exact A|].
    destruct (q <? m) eqn:G; [|reflexivity].
    destruct (ltb_cotrans q acc m G N) as [C|C]; congruence.
Qed.

(** What the loop ends with is where it started or one of the prices. *)
Lemma fold_lower_choice ps : forall acc,
  fold_left lower ps acc = acc \/ In (fold_left lower ps acc) ps.
Proof.
  induction ps as [|q ps IH]; intros acc; simpl; [now left|].
  destruct (IH (lower acc q)) as [E|I]; [|now right; right].
  rewrite E. unfold lower. destruct (q <? acc); [right; now left | now left].
Qed.

Lemma inf_not_nan : is_nan inf = false.
Proof. reflexivity. Qed.

End RunningMinimum.

Section BestPrice.

Variable env : Env.

Local Open Scope float_scope.

(** The loop returns when every call of [get_pricing] does, and then with the
    running minimum of the obtained prices. *)
Lemma best_price_loop_obtained nm urls : forall acc w ps w' t,
  obtained_prices env nm urls w = (Ok ps, w', t) ->
  best_price_loop env nm urls acc w = (Ok (fold_left lower ps acc), w', t).
Proof.
  induction urls as [|link urls IH]; intros acc w ps w' t; simpl.
  - unfold ret. intros [= <- <- <-]. reflexivity.
  - unfold bind at 1 3.
    destruct (get_pricing env nm link w) as [[[p|e] w1] t1]; [|discriminate].
    unfold bind at 1.
    destruct (obtained_prices env nm urls w1) as [[[qs|e] w2] t2] eqn:O;
      [|discriminate].
    unfold ret. cbn. intros [= <- <- <-].
    rewrite (IH (if p <? acc then p else acc) w1 qs w2 t2 O).
    now rewrite app_nil_r.
Qed.

(** C6. When the prices of all the links of a product are obtained,
    [best_price] returns their minimum: no obtained price is below the
    returned one, which is one of them, or [np.inf] when none of them is below
    [np.inf]; and as soon as one obtained price is real, that is below both
    sentinels, the returned price is real too, so neither sentinel wins. *)
Theorem best_price_is_minimum prod w ps w' t :
  obtained_prices env (name prod) (values (links prod)) w = (Ok ps, w', t) ->
  exists m,
    best_price env prod w = (Ok m, w', t ++ [best_message prod m]) /\
    (forall p, In p ps -> (p <? m) = false) /\
    (In m ps \/ m = inf /\ forall p, In p ps -> (p <? inf) = false) /\
    (forall p, In p ps -> real_price p = true ->
               real_price m = true /\ ~ sentinel m).
Proof.
  intros O. exists (fold_left lower ps inf).
  destruct (fold_lower_bound ps inf inf_not_nan) as (_ & N & B).
  split; [|split; [exact B|split]].
  - unfold best_price, bind at 1.
    rewrite (best_price_loop_obtained _ _ inf _ _ _ _ O).
    unfold bind, print, emit, ret, best_message. cbn.
    reflexivity.
  - destruct (fold_lower_choice ps inf) as [E|I]; [right|now left].
    split; [exact E|]. rewrite E in B. exact B.
  - intros p I R. unfold real_price in *.
    assert (M : (fold_left lower ps inf <? float_info_max) = true).
    { destruct (ltb_cotrans p (fold_left lower ps inf) float_info_max R N)
        as [C|C]; [|exact C].
      rewrite (B p I) in C. discriminate C. }
    split; [exact M|].
    intros [S|S]; rewrite S in M; vm_compute in M; discriminate M.
Qed.

End BestPrice.

Lemma best_price_is_minimum_witness :
  obtained_prices example_env (name example_product)
                  (values (links example_product)) cached_world
  = (Ok [10; infinity; 7.5]%float, mkWorld (prices cached_world) 2 0,
     [still_recent (name example_product) "microcenter";
      still_recent (name example_product) "amazon"]) /\
  result_of (best_price example_env example_product cached_world)
  = Ok 7.5%float /\
  exists m,
    best_price example_env example_product cached_world
    = (Ok m, mkWorld (prices cached_world) 2 0,
       [still_recent (name example_product) "microcenter";
        still_recent (name example_product) "amazon"]
       ++ [best_message example_product m]) /\
    (forall p, In p [10; infinity; 7.5]%float -> (p <? m)%float = false) /\
    (In m [10; infinity; 7.5]%float \/
     m = inf /\
     forall p, In p [10; infinity; 7.5]%float -> (p <? inf)%float = false) /\
    (forall p, In p [10; infinity; 7.5]%float -> real_price p = true ->
               real_price m = true /\ ~ sentinel m).
Proof.
  split; [vm_compute; reflexivity|].
  split; [vm_compute; reflexivity|].
  apply (best_price_is_minimum example_env example_product cached_world).
  vm_compute; reflexivity.
Defined.

(** ** [PCBuild.report_build] *)

Section Report.

Variable env : Env.

(** The loop returns when every call of [best_price] does, and then with the
    total accumulated over the best prices. *)
Lemma report_loop_total ps : forall seen total w bs w' t,
  best_prices env ps w = (Ok bs, w', t) ->
  exists seen',
    report_loop env ps seen total w
    = (Ok (seen', fold_left add_resolved bs total), w', t).
Proof.
  induction ps as [|part ps IH]; intros seen total w bs w' t; simpl.
  - unfold ret. intros [= <- <- <-]. now exists seen.
  - unfold bind at 1 3.
    destruct (best_price env part w) as [[[p|e] w1] t1]; [|discriminate].
    unfold bind at 1.
    destruct (best_prices env ps w1) as [[[qs|e] w2] t2] eqn:B; [|discriminate].
    unfold ret. cbn. intros [= <- <- <-].
    destruct (IH (dict_set (name part) p seen)
                 (total + (if (p <? inf)%float then p else 0))%float
                 w1 qs w2 t2 B) as [seen' E].
    exists seen'. rewrite E. now rewrite app_nil_r.
Qed.

(** [np.inf] adds nothing to a total; every price below it, the largest
    finite float included, is added as it is. *)
Lemma add_resolved_inf total : add_resolved total inf = (total + 0)%float.
Proof. reflexivity. Qed.

Lemma add_resolved_below total p :
  (p <? inf)%float = true -> add_resolved total p = (total + p)%float.
Proof. unfold add_resolved. now intros ->. Qed.

Lemma dict_get_set {V : Type} k (v : V) d : dict_get k (dict_set k v d) = Some v.
Proof.
  induction d as [|[k' v'] d IH]; simpl.
  - now rewrite String.eqb_refl.
  - destruct (String.eqb k' k) eqn:E; simpl; [now rewrite String.eqb_refl|].
    now rewrite E.
Qed.

(** X8. When the best price of every part is obtained, [report_build]
    returns and writes the frame once, as the last thing it does; the row
    [Total] of the frame is the float sum, from 0 and in the order of the
    parts, of the best prices, in which a price that is not below [np.inf]
    counts as 0 and every other price as it is. *)
Lemma report_build_total b file w bs w' t :
  best_prices env (parts b) w = (Ok bs, w', t) ->
  exists seen frame,
    report_build env b file w
    = (Ok (mkBuild (build_name b) (parts b) seen), w',
       Stdout (Line ("Price breakdown for " ++ build_name b ++ ":"))
       :: t ++ [Stdout (Prices seen); ToCsv file frame]) /\
    dict_get "Total" frame = Some (fold_left add_resolved bs 0%float).
Proof.
  intros B.
  destruct (report_loop_total (parts b) (build_prices b) 0%float w bs w' t B)
    as [seen E].
  exists seen, (dict_set "Total" (fold_left add_resolved bs 0%float) seen).
  split; [|apply dict_get_set].
  unfold report_build, bind, print, emit, ret. cbn. rewrite E. cbn.
  reflexivity.
Qed.

End Report.

(** ** The default case of the dispatch *)

Section Unsupported.

Variable env : Env.

(** For a domain outside the dispatch and without a fresh record the call
    warns, takes [sys.float_info.max] and is left by the [AttributeError] of
    the message: nothing is returned. *)
Lemma unsupported_domain_raises name u d w :
  domain_of u = Ok d ->
  String.eqb d "microcenter" = false ->
  String.eqb d "amazon" = false ->
  fresh_hit env u w = false ->
  fetch_price env name d u (tick w)
  = (Ok float_info_max, tick w, [could_not_get name d]) /\
  get_pricing env name (Some u) w
  = (Raise AttributeError, tick (tick w), [could_not_get name d]).
Proof.
  intros D M A F.
  assert (Fe : fetch_price env name d u (tick w)
               = (Ok float_info_max, tick w, [could_not_get name d])).
  { unfold fetch_price. rewrite M, A. reflexivity. }
  split; [exact Fe|].
  rewrite (get_pricing_miss env name u d w D F).
  unfold bind at 1. rewrite Fe.
  unfold bind. rewrite record_price_raises. reflexivity.
Qed.

End Unsupported.

(** ** Where the code departs from what it sets out to do *)

(** C3.  A request for a stale URL executes the UPDATE and is then left by the
    [AttributeError] of [price.round(2)]: the table still holds the old price
    and the old time, not the row the statement had written. *)
Theorem stale_record_is_not_updated :
  get_pricing example_env "gpu" (Some example_gpu) stale_world
  = (Raise AttributeError,
     mkWorld [Sql.mkRow example_gpu 5 0] 2 1,
     [Navigate example_gpu]) /\
  fetch_price example_env "gpu" "microcenter" example_gpu (tick stale_world)
  = (Ok 0x1.85feb851eb852p+9%float, mkWorld (prices stale_world) 1 1,
     [Navigate example_gpu]) /\
  Sql.update 0x1.85feb851eb852p+9 100001 example_gpu (prices stale_world)
  = [Sql.mkRow example_gpu 0x1.85feb851eb852p+9 100001].
Proof.
  repeat split; vm_compute; reflexivity.
Qed.

(** C4.  A failed extraction is not memoized.  For an unsupported domain and
    for a page without the price element the sentinel is produced and
    inserted, the insertion is undone by the [AttributeError], and the next
    call for the same URL extracts again. *)
Theorem failed_extraction_is_not_cached :
  let first := get_pricing example_env "cpu" (Some example_other) empty_world in
  let gone := get_pricing example_env "gpu" (Some example_gone) empty_world in
  first = (Raise AttributeError, mkWorld [] 2 0, [could_not_get "cpu" "newegg"]) /\
  get_pricing example_env "cpu" (Some example_other) (world_of first)
  = (Raise AttributeError, mkWorld [] 4 0, [could_not_get "cpu" "newegg"]) /\
  fetch_price example_env "gpu" "microcenter" example_gone (tick empty_world)
  = (Ok inf, mkWorld [] 1 1, [Navigate example_gone; Stdout TimeoutMessage]) /\
  gone = (Raise AttributeError, mkWorld [] 2 1,
          [Navigate example_gone; Stdout TimeoutMessage]) /\
  get_pricing example_env "gpu" (Some example_gone) (world_of gone)
  = (Raise AttributeError, mkWorld [] 4 2,
     [Navigate example_gone; Stdout TimeoutMessage]).
Proof.
  repeat split; vm_compute; reflexivity.
Qed.

(** C7.  For a URL whose domain is not in the supported set the warning is
    emitted and the sentinel chosen, [sys.float_info.max] where the docstring
    says [np.inf], but nothing is returned to the caller: after the INSERT,
    or after the UPDATE of a stale record, [price.round(2)] raises
    [AttributeError]. *)
Theorem unsupported_domain_does_not_return :
  let stale := mkWorld [Sql.mkRow example_other float_info_max 0] 0 0 in
  domain_of example_other = Ok "newegg"%string /\
  fetch_price example_env "cpu" "newegg" example_other (tick empty_world)
  = (Ok float_info_max, tick empty_world, [could_not_get "cpu" "newegg"]) /\
  get_pricing example_env "cpu" (Some example_other) empty_world
  = (Raise AttributeError, tick (tick empty_world),
     [could_not_get "cpu" "newegg"]) /\
  get_pricing example_env "cpu" (Some example_other) stale
  = (Raise AttributeError, tick (tick stale), [could_not_get "cpu" "newegg"]).
Proof.
  repeat split; vm_compute; reflexivity.
Qed.

(** C5.  With best prices 5.0 and [np.inf] the total is 5.0, but the price
    that stands for an unsupported retailer, [sys.float_info.max], is below
    [np.inf] and is added to the total. *)
Theorem unavailable_price_is_added_to_total :
  In (ToCsv "build.csv"
            [("MSI RTX 3080"%string, 5%float);
             ("EVGA Nvidia GTX 3080Ti FTW3 Ultra"%string, infinity);
             ("Total"%string, 5%float)])
     (trace_of (report_build example_env example_build "build.csv" five_world)) /\
  result_of (get_pricing example_env "AMD Ryzen 7" (Some example_other)
                         unavailable_world) = Ok float_info_max /\
  In (ToCsv "build.csv"
            [("AMD Ryzen 7"%string, float_info_max);
             ("Total"%string, float_info_max)])
     (trace_of (report_build example_env unavailable_build "build.csv"
                             unavailable_world)) /\
  add_resolved 0 float_info_max = float_info_max /\
  add_resolved 5 inf = 5%float.
Proof.
  repeat split; vm_compute; tauto.
Qed.

(** C8.  An unsupported domain and an absent price element are not swallowed:
    the [AttributeError] leaves [get_pricing], [best_price] and
    [report_build]. *)
Theorem extraction_is_fatal :
  result_of (get_pricing example_env "cpu" (Some example_other) empty_world)
  = Raise AttributeError /\
  result_of (get_pricing example_env "gpu" (Some example_gone) empty_world)
  = Raise AttributeError /\
  result_of (get_pricing example_env "gpu" (Some example_gpu) empty_world)
  = Raise AttributeError /\
  result_of (best_price example_env example_product empty_world)
  = Raise AttributeError /\
  result_of (report_build example_env unavailable_build "build.csv" empty_world)
  = Raise AttributeError.
Proof.
  repeat split; vm_compute; reflexivity.
Qed.

(** ** More on the parsing of the domain *)

Lemma count_append c a b : count c (a ++ b) = count c a + count c b.
Proof.
  induction a as [|x a IH]; simpl; [reflexivity|]. rewrite IH. lia.
Qed.

Lemma split_without sep s : count sep s = 0 -> split sep s = [s].
Proof.
  induction s as [|c s IH]; simpl; [reflexivity|].
  destruct (Ascii.eqb c sep); simpl; [discriminate|].
  intros H. now rewrite (IH H).
Qed.

Lemma split_append sep a b :
  count sep a = 0 -> split sep (a ++ String sep b) = a :: split sep b.
Proof.
  induction a as [|c a IH]; simpl.
  - now rewrite Ascii.eqb_refl.
  - destruct (Ascii.eqb c sep); simpl; [discriminate|].
    intros H. now rewrite (IH H).
Qed.

(** No character occurs more often in a segment than in the string. *)
Lemma split_segment_count sep c s : forall seg,
  In seg (split sep s) -> count c seg <= count c s.
Proof.
  induction s as [|x s IH]; simpl; intros seg I.
  - destruct I as [<-|[]]. simpl. lia.
  - destruct (Ascii.eqb x sep).
    + destruct I as [<-|I]; [simpl; lia|]. specialize (IH seg I). lia.
    + destruct (split sep s) as [|s0 segs] eqn:E.
      * destruct I as [<-|[]]. simpl. lia.
      * destruct I as [<-|I].
        -- simpl. specialize (IH s0 (or_introl eq_refl)). lia.
        -- specialize (IH seg (or_intror I)). lia.
Qed.

(** The separator occurs in no segment. *)
Lemma split_segment_clean sep s : forall seg,
  In seg (split sep s) -> count sep seg = 0.
Proof.
  induction s as [|x s IH]; simpl; intros seg I.
  - now destruct I as [<-|[]].
  - destruct (Ascii.eqb x sep) eqn:X.
    + destruct I as [<-|I]; [reflexivity | now apply IH].
    + destruct (split sep s) as [|s0 segs] eqn:E.
      * destruct I as [<-|[]]. simpl. now rewrite X.
      * destruct I as [<-|I].
        -- simpl. rewrite X. apply IH. now left.
        -- apply IH. now right.
Qed.

Lemma index_Ok_In (A : Type) (l : list A) i x : index l i = Ok x -> In x l.
Proof.
  unfold index. destruct (nth_error l i) as [y|] eqn:E; [|discriminate].
  intros [= <-]. eapply nth_error_In; eassumption.
Qed.

(** X1. The domain of a URL parses exactly when the URL has a third
    slash-separated segment with a dot in it; the parsed domain contains
    neither a slash nor a dot; and the only exception of the parsing is
    [IndexError]. *)
Theorem domain_of_parses u :
  ((exists d, domain_of u = Ok d) <->
   (exists host, nth_error (split "/" u) 2 = Some host /\ 0 < count "." host)) /\
  (forall d, domain_of u = Ok d -> count "/" d = 0 /\ count "." d = 0) /\
  (forall e, domain_of u = Raise e -> e = IndexError).
Proof.
  split; [split|split].
  - intros [d D]. unfold domain_of, index at 1 in D.
    destruct (nth_error (split "/" u) 2) as [host|] eqn:H; [|discriminate].
    exists host. split; [reflexivity|].
    destruct (count "." host) eqn:C; [|lia].
    rewrite index_out_of_range in D; [discriminate|].
    rewrite split_length. lia.
  - intros (host & H & C). now apply domain_of_ok with (host := host).
  - intros d D. unfold domain_of in D.
    destruct (index (split "/" u) 2) as [host|] eqn:H; [|discriminate].
    apply index_Ok_In in H. apply index_Ok_In in D.
    split; [|now apply split_segment_clean with (s := host)].
    pose proof (split_segment_clean "/" u host H) as Z.
    pose proof (split_segment_count "." "/" host d D). lia.
  - intros e D. unfold domain_of in D.
    unfold index in D.
    destruct (nth_error (split "/" u) 2) as [host|]; [|now injection D].
    destruct (nth_error (split "." host) 1); [discriminate | now injection D].
Qed.

Section SecondLabel.

Local Open Scope string_scope.

Lemma append_empty s : s ++ "" = s.
Proof. induction s as [|c s IH]; simpl; [reflexivity | now rewrite IH]. Qed.

(** X2. The domain is the second dot-separated label of the host: for a URL
    [scheme//l1.l2<more labels><path>] it is [l2].  A host without a leading
    label such as [www] is therefore keyed by what follows its first dot. *)
Theorem domain_is_second_label scheme l1 l2 more path :
  count "/" scheme = 0 ->
  count "/" l1 = 0 -> count "." l1 = 0 ->
  count "/" l2 = 0 -> count "." l2 = 0 ->
  count "/" more = 0 ->
  (more = EmptyString \/ exists m, more = String "." m) ->
  (path = EmptyString \/ exists p, path = String "/" p) ->
  domain_of (scheme ++ "//" ++ (l1 ++ "." ++ l2 ++ more) ++ path) = Ok l2.
Proof.
  intros Hs H1 D1 H2 D2 Hm M P.
  assert (Hh : count "/" (l1 ++ "." ++ l2 ++ more) = 0).
  { rewrite count_append. simpl. rewrite count_append. lia. }
  assert (S2 : nth_error (split "/" (scheme ++ "//" ++ (l1 ++ "." ++ l2 ++ more)
                                            ++ path)) 2
               = Some (l1 ++ "." ++ l2 ++ more)).
  { change (scheme ++ "//" ++ (l1 ++ "." ++ l2 ++ more) ++ path)
      with (scheme ++ String "/" (String "/" ((l1 ++ "." ++ l2 ++ more) ++ path))).
    rewrite (split_append "/" scheme _ Hs).
    change (String "/" ((l1 ++ "." ++ l2 ++ more) ++ path))
      with (EmptyString ++ String "/" ((l1 ++ "." ++ l2 ++ more) ++ path)).
    rewrite (split_append "/" EmptyString _ eq_refl).
    destruct P as [->|[p ->]].
    - rewrite append_empty, (split_without "/" _ Hh). reflexivity.
    - rewrite (split_append "/" _ p Hh). reflexivity. }
  unfold domain_of, index at 1. rewrite S2.
  change (l1 ++ "." ++ l2 ++ more) with (l1 ++ String "." (l2 ++ more)).
  rewrite (split_append "." l1 _ D1).
  destruct M as [->|[m ->]].
  - rewrite append_empty, (split_without "." _ D2). reflexivity.
  - rewrite (split_append "." l2 m D2). reflexivity.
Qed.

End SecondLabel.

Lemma domain_is_second_label_witness :
  count "/" "https:" = 0 /\
  count "/" "microcenter" = 0 /\ count "." "microcenter" = 0 /\
  count "/" "com" = 0 /\ count "." "com" = 0 /\
  domain_of "https://microcenter.com/product/639544" = Ok "com"%string /\
  domain_of "https://www.microcenter.com" = Ok "microcenter"%string.
Proof.
  do 5 (split; [reflexivity|]).
  split.
  - apply (domain_is_second_label "https:" "microcenter" "com" ""
             "/product/639544"); try reflexivity.
    + now left.
    + right. now exists "product/639544"%string.
  - apply (domain_is_second_label "https:" "www" "microcenter" ".com" "");
      try reflexivity.
    + right. now exists "com"%string.
    + now left.
Defined.

(** ** What a call does to the state, whether it returns or raises *)

Section Frame.

Variable env : Env.

Lemma bind_keeps_table (A B : Type) (m : M A) (k : A -> M B) :
  (forall w, prices (world_of (m w)) = prices w) ->
  (forall a w, prices (world_of (k a w)) = prices w) ->
  forall w, prices (world_of (bind m k w)) = prices w.
Proof.
  intros Hm Hk w. unfold bind. specialize (Hm w).
  destruct (m w) as [[[a|e] w1] t1]; unfold world_of in *; cbn in *;
    [|exact Hm].
  specialize (Hk a w1). destruct (k a w1) as [[r w2] t2]. cbn in *. congruence.
Qed.

Lemma bind_no_csv (A B : Type) (m : M A) (k : A -> M B) :
  (forall w, writes_csv (trace_of (m w)) = false) ->
  (forall a w, writes_csv (trace_of (k a w)) = false) ->
  forall w, writes_csv (trace_of (bind m k w)) = false.
Proof.
  intros Hm Hk w. unfold bind. specialize (Hm w).
  destruct (m w) as [[[a|e] w1] t1]; unfold trace_of in *; cbn in *;
    [|exact Hm].
  specialize (Hk a w1). destruct (k a w1) as [[r w2] t2]. cbn in *.
  unfold writes_csv in *. rewrite existsb_app, Hm, Hk. reflexivity.
Qed.

(** The path without a fresh record, read off the run of the dispatch. *)
Lemma miss_run name d u outdated w :
  (p <- fetch_price env name d u ;;
   record_price env name d u outdated p ;;
   ret p) w
  = match fetch_price env name d u w with
    | (Ok p, w1, t1) => (Raise AttributeError, tick w1, t1)
    | (Raise e, w1, t1) => (Raise e, w1, t1)
    end.
Proof.
  unfold bind at 1.
  destruct (fetch_price env name d u w) as [[[p|e] w1] t1]; [|reflexivity].
  unfold bind. rewrite record_price_raises. now rewrite app_nil_r.
Qed.

Lemma fetch_price_no_csv name d u w :
  writes_csv (trace_of (fetch_price env name d u w)) = false.
Proof.
  unfold fetch_price, get_microcenter_price, get_amazon_price,
    float_of_attribute, float_of_str, bind, navigate, print, emit, ret, raise,
    trace_of.
  destruct (String.eqb d "microcenter"); [|destruct (String.eqb d "amazon")];
    cbn; [| |reflexivity].
  - destruct (pricing_present (browse env (loads w) u));
      destruct (pricing_content (browse env (loads w) u)) as [|[c|] cs];
      cbn; try reflexivity; destruct (py_float env c); reflexivity.
  - destruct (fraction_present (browse env (loads w) u));
      destruct (price_whole (browse env (loads w) u)) as [|a ws];
      destruct (price_frac (browse env (loads w) u)) as [|b fs];
      cbn; try reflexivity; destruct (py_float env _); reflexivity.
Qed.

Lemma get_pricing_no_csv name u w :
  writes_csv (trace_of (get_pricing env name u w)) = false.
Proof.
  destruct u as [u|]; [|reflexivity].
  destruct (domain_of u) as [d|e] eqn:D.
  2:{ unfold get_pricing, bind, lift. rewrite D. reflexivity. }
  destruct (fresh_hit env u w) eqn:F.
  - unfold fresh_hit in F.
    destruct (Sql.lookup u (prices w)) as [r|] eqn:L; [|discriminate].
    apply Z.leb_le in F. now rewrite (get_pricing_hit env name u d r w D L F).
  - rewrite (get_pricing_miss env name u d w D F), miss_run.
    pose proof (fetch_price_no_csv name d u (tick w)) as P.
    destruct (fetch_price env name d u (tick w)) as [[[p|x] w1] t1]; exact P.
Qed.

Lemma best_price_loop_frame nm urls : forall acc w,
  prices (world_of (best_price_loop env nm urls acc w)) = prices w /\
  writes_csv (trace_of (best_price_loop env nm urls acc w)) = false.
Proof.
  induction urls as [|link urls IH]; intros acc w; simpl; [now split|].
  split.
  - apply bind_keeps_table; [apply get_pricing_prices|].
    intros p w1. apply IH.
  - apply bind_no_csv; [apply get_pricing_no_csv|].
    intros p w1. apply IH.
Qed.

Lemma best_price_frame prod w :
  prices (world_of (best_price env prod w)) = prices w /\
  writes_csv (trace_of (best_price env prod w)) = false.
Proof.
  unfold best_price. split.
  - apply bind_keeps_table; [intros w1; apply best_price_loop_frame|].
    reflexivity.
  - apply bind_no_csv; [intros w1; apply best_price_loop_frame|].
    reflexivity.
Qed.

Lemma best_prices_frame ps : forall w,
  prices (world_of (best_prices env ps w)) = prices w /\
  writes_csv (trace_of (best_prices env ps w)) = false.
Proof.
  induction ps as [|part ps IH]; intros w; simpl; [now split|].
  split.
  - apply bind_keeps_table; [intros w1; apply best_price_frame|].
    intros p w1. apply bind_keeps_table; [intros w2; apply IH|reflexivity].
  - apply bind_no_csv; [intros w1; apply best_price_frame|].
    intros p w1. apply bind_no_csv; [intros w2; apply IH|reflexivity].
Qed.

Lemma report_loop_keeps_table ps : forall seen total w,
  prices (world_of (report_loop env ps seen total w)) = prices w.
Proof.
  induction ps as [|part ps IH]; intros seen total w; simpl; [reflexivity|].
  apply bind_keeps_table; [intros w1; apply best_price_frame|].
  intros p w1. apply IH.
Qed.

(** X3. No call of [get_pricing], [best_price] or [report_build] changes the
    committed prices table, whether the call returns or raises: the table is
    read, and what a call writes is undone before the call ends. *)
Theorem table_is_never_changed :
  (forall name u w, prices (world_of (get_pricing env name u w)) = prices w) /\
  (forall prod w, prices (world_of (best_price env prod w)) = prices w) /\
  (forall b file w, prices (world_of (report_build env b file w)) = prices w).
Proof.
  split; [apply get_pricing_prices|].
  split; [intros prod w; apply best_price_frame|].
  intros b file w. unfold report_build.
  apply bind_keeps_table; [reflexivity|]. intros _ w1.
  apply bind_keeps_table; [apply report_loop_keeps_table|]. intros r w2.
  apply bind_keeps_table; [reflexivity|]. intros _ w3.
  apply bind_keeps_table; reflexivity.
Qed.

Lemma get_pricing_ok_cases name u w p w' t :
  get_pricing env name u w = (Ok p, w', t) ->
  (u = None /\ p = inf /\ w' = w /\ t = []) \/
  (exists url d r,
      u = Some url /\
      domain_of url = Ok d /\
      Sql.lookup url (prices w) = Some r /\
      (clock env (ticks w) - Sql.time r <= 86400)%Z /\
      p = Sql.price r /\ w' = tick w /\ t = [still_recent name d]).
Proof.
  intros G. destruct u as [url|].
  2:{ left. unfold get_pricing, ret in G. injection G as <- <- <-. auto. }
  right.
  destruct (domain_of url) as [d|e] eqn:D.
  2:{ unfold get_pricing, bind, lift in G. rewrite D in G. discriminate G. }
  destruct (get_pricing_returns_cached env name url w p w' t G)
    as (r & L & F & ->).
  rewrite (get_pricing_hit env name url d r w D L F) in G.
  injection G as <- <-.
  exists url, d, r. repeat split; auto.
Qed.

(** X4. [get_pricing] returns in two ways only: for the URL [None], with
    [np.inf] and without any effect, and on a fresh record of a URL whose
    domain parses, with the price of that record, after one reading of the
    clock and the message of the hit. *)
Theorem get_pricing_returns_in_two_ways name u w p w' t :
  get_pricing env name u w = (Ok p, w', t) ->
  (u = None /\ p = inf /\ w' = w /\ t = []) \/
  (exists url d r,
      u = Some url /\
      domain_of url = Ok d /\
      Sql.lookup url (prices w) = Some r /\
      (clock env (ticks w) - Sql.time r <= 86400)%Z /\
      p = Sql.price r /\ w' = tick w /\ t = [still_recent name d]).
Proof.
  intros G. destruct (get_pricing_ok_cases name u w p w' t G) as [H|H].
  - left. exact H.
  - right. exact H.
Qed.

(** X5. For a URL whose domain parses and that has no fresh record,
    [get_pricing] never returns.  It runs the dispatch, which navigates or
    warns, and ends with the exception of the extractor or, when a price was
    fetched, with the [AttributeError] of the message; the table is as
    before. *)
Theorem no_fresh_record_never_returns name u d w :
  domain_of u = Ok d ->
  fresh_hit env u w = false ->
  get_pricing env name (Some u) w
  = match fetch_price env name d u (tick w) with
    | (Ok p, w1, t1) => (Raise AttributeError, tick w1, t1)
    | (Raise e, w1, t1) => (Raise e, w1, t1)
    end /\
  (exists e, result_of (get_pricing env name (Some u) w) = Raise e) /\
  extracts (trace_of (get_pricing env name (Some u) w)) = true /\
  prices (world_of (get_pricing env name (Some u) w)) = prices w.
Proof.
  intros D F. split; [|split; [|split]].
  - now rewrite (get_pricing_miss env name u d w D F), miss_run.
  - apply (get_pricing_miss_raises env name u d w D F).
  - apply (get_pricing_miss_extracts env name u d w D F).
  - apply get_pricing_prices.
Qed.

Lemma get_pricing_returns_quietly name u w p w' t :
  get_pricing env name u w = (Ok p, w', t) ->
  loads w' = loads w /\ extracts t = false.
Proof.
  intros G.
  destruct (get_pricing_ok_cases name u w p w' t G)
    as [(_ & _ & -> & ->)|(url & d & r & _ & _ & _ & _ & _ & -> & ->)];
    now split.
Qed.

End Frame.

(** ** More on [Product.best_price] *)

Section BestPriceRuns.

Variable env : Env.

Local Open Scope float_scope.

(** A loop that returns has obtained every price, without extraction. *)
Lemma best_price_loop_returns nm urls : forall acc w m w' t,
  best_price_loop env nm urls acc w = (Ok m, w', t) ->
  loads w' = loads w /\ extracts t = false /\
  exists ps,
    obtained_prices env nm urls w = (Ok ps, w', t) /\
    m = fold_left lower ps acc.
Proof.
  induction urls as [|link urls IH]; intros acc w m w' t; simpl.
  - unfold ret. intros [= <- <- <-]. repeat split. now exists [].
  - unfold bind at 1 2.
    destruct (get_pricing env nm link w) as [[[p|e] w1] t1] eqn:G;
      [|discriminate].
    destruct (get_pricing_returns_quietly env nm link w p w1 t1 G) as [L1 E1].
    destruct (best_price_loop env nm urls (if p <? acc then p else acc) w1)
      as [[[m2|e] w2] t2] eqn:B; [|discriminate].
    intros [= <- <- <-].
    destruct (IH _ _ _ _ _ B) as (L2 & E2 & ps & O & M).
    split; [congruence|]. split.
    { unfold extracts in *. now rewrite existsb_app, E1, E2. }
    exists (p :: ps). unfold bind. rewrite O. cbn.
    now rewrite app_nil_r.
Qed.

(** X6. Whenever [best_price] returns, the browser was not used and no
    warning was emitted: every link was [None] or answered from a fresh
    record.  The clock and the table aside, the state is as before, and the
    price returned is not a NaN. *)
Theorem best_price_returns_from_cache_only prod w m w' t :
  best_price env prod w = (Ok m, w', t) ->
  loads w' = loads w /\
  prices w' = prices w /\
  extracts t = false /\
  is_nan m = false /\
  exists ps,
    obtained_prices env (name prod) (values (links prod)) w
    = (Ok ps, w', removelast t).
Proof.
  intros B.
  pose proof (proj1 (best_price_frame env prod w)) as P.
  rewrite B in P. unfold world_of in P. cbn in P.
  unfold best_price, bind at 1 in B.
  destruct (best_price_loop env (name prod) (values (links prod)) inf w)
    as [[[m1|e] w1] t1] eqn:L; [|discriminate].
  unfold bind, print, emit, ret in B. cbn in B. injection B as <- <- <-.
  destruct (best_price_loop_returns _ _ _ _ _ _ _ L) as (Lo & E & ps & O & M).
  split; [exact Lo|]. split; [exact P|]. split.
  { unfold extracts in *. now rewrite existsb_app, E. }
  split.
  { rewrite M. apply (fold_lower_bound ps inf inf_not_nan). }
  exists ps. now rewrite removelast_last.
Qed.

Lemma best_price_loop_stops nm pre link post e : forall acc w ps w1 t1 w2 t2,
  obtained_prices env nm pre w = (Ok ps, w1, t1) ->
  get_pricing env nm link w1 = (Raise e, w2, t2) ->
  best_price_loop env nm (pre ++ link :: post) acc w = (Raise e, w2, t1 ++ t2).
Proof.
  induction pre as [|l pre IH]; intros acc w ps w1 t1 w2 t2; simpl.
  - unfold ret. intros [= <- <- <-] G. unfold bind. now rewrite G.
  - unfold bind at 1 3.
    destruct (get_pricing env nm l w) as [[[p|x] w0] t0]; [|discriminate].
    unfold bind at 1.
    destruct (obtained_prices env nm pre w0) as [[[qs|x] w3] t3] eqn:O;
      [|discriminate].
    unfold ret. cbn. intros [= <- <- <-] G.
    rewrite (IH _ _ _ _ _ _ _ O G). now rewrite app_nil_r, app_assoc.
Qed.

(** X7. [best_price] stops at the first link whose [get_pricing] raises: it
    ends with that exception, in the state and with the trace reached there,
    and the links after it are not visited, whatever they are. *)
Theorem best_price_stops_at_first_exception prod pre link post w ps w1 t1 e w2 t2 :
  values (links prod) = pre ++ link :: post ->
  obtained_prices env (name prod) pre w = (Ok ps, w1, t1) ->
  get_pricing env (name prod) link w1 = (Raise e, w2, t2) ->
  best_price env prod w = (Raise e, w2, t1 ++ t2).
Proof.
  intros V O G. unfold best_price, bind at 1. rewrite V.
  now rewrite (best_price_loop_stops _ _ _ post _ inf _ _ _ _ _ _ O G).
Qed.

Lemma best_price_loop_unlisted nm urls : forall w,
  (forall l, In l urls -> l = None) ->
  best_price_loop env nm urls inf w = (Ok inf, w, []).
Proof.
  induction urls as [|l urls IH]; intros w N; simpl; [reflexivity|].
  rewrite (N l (or_introl eq_refl)). unfold bind. cbn.
  change (if inf <? inf then inf else inf) with inf.
  rewrite IH; [reflexivity|]. intros x I. apply N. now right.
Qed.

(** X14. A product none of whose retailers has a URL, in particular one
    without retailers, has the best price [np.inf]; computing it reads
    neither the clock nor the table and does not use the browser. *)
Theorem best_price_without_urls prod w :
  (forall l, In l (values (links prod)) -> l = None) ->
  best_price env prod w = (Ok inf, w, [best_message prod inf]).
Proof.
  intros N. unfold best_price, bind at 1.
  rewrite (best_price_loop_unlisted _ _ w N). reflexivity.
Qed.

End BestPriceRuns.

Lemma report_build_total_witness :
  best_prices example_env (parts example_build) five_world
  = (Ok [5; infinity]%float, tick five_world,
     [still_recent "MSI RTX 3080" "microcenter";
      Stdout (Fmt "Best price for MSI RTX 3080 is " 5 "");
      Stdout (Fmt "Best price for EVGA Nvidia GTX 3080Ti FTW3 Ultra is "
                  infinity "")]) /\
  fold_left add_resolved [5; infinity]%float 0%float = 5%float /\
  exists seen frame,
    report_build example_env example_build "build.csv" five_world
    = (Ok (mkBuild (build_name example_build) (parts example_build) seen),
       tick five_world,
       Stdout (Line ("Price breakdown for " ++ build_name example_build ++ ":"))
       :: [still_recent "MSI RTX 3080" "microcenter";
           Stdout (Fmt "Best price for MSI RTX 3080 is " 5 "");
           Stdout (Fmt "Best price for EVGA Nvidia GTX 3080Ti FTW3 Ultra is "
                       infinity "")]
       ++ [Stdout (Prices seen); ToCsv "build.csv" frame]) /\
    dict_get "Total" frame
    = Some (fold_left add_resolved [5; infinity]%float 0%float).
Proof.
  split; [vm_compute; reflexivity|].
  split; [vm_compute; reflexivity|].
  apply (report_build_total example_env example_build "build.csv" five_world).
  vm_compute; reflexivity.
Defined.

(** ** More on [PCBuild.report_build] *)

Section ReportRuns.

Variable env : Env.

Lemma report_loop_raises ps : forall seen total w e w' t,
  best_prices env ps w = (Raise e, w', t) ->
  report_loop env ps seen total w = (Raise e, w', t).
Proof.
  induction ps as [|part ps IH]; intros seen total w e w' t; simpl.
  - unfold ret. discriminate.
  - unfold bind at 1 3.
    destruct (best_price env part w) as [[[p|x] w1] t1].
    + unfold bind at 1.
      destruct (best_prices env ps w1) as [[[qs|x] w2] t2] eqn:B.
      * unfold ret. cbn. discriminate.
      * intros [= <- <- <-]. now rewrite (IH _ _ _ _ _ _ B).
    + intros [= <- <- <-]. reflexivity.
Qed.

(** X9. When the best price of some part cannot be obtained, [report_build]
    ends with the exception of that part and nothing is written: the run has
    the header and what the parts printed, and no frame. *)
Theorem report_is_not_written_on_failure b file w e w' t :
  best_prices env (parts b) w = (Raise e, w', t) ->
  report_build env b file w
  = (Raise e, w',
     Stdout (Line ("Price breakdown for " ++ build_name b ++ ":")) :: t) /\
  writes_csv (trace_of (report_build env b file w)) = false.
Proof.
  intros B.
  assert (R : report_build env b file w
              = (Raise e, w',
                 Stdout (Line ("Price breakdown for " ++ build_name b ++ ":"))
                 :: t)).
  { unfold report_build, bind, print, emit. cbn.
    now rewrite (report_loop_raises _ (build_prices b) 0%float _ _ _ _ B). }
  split; [exact R|]. rewrite R.
  pose proof (proj2 (best_prices_frame env (parts b) w)) as C.
  rewrite B in C. exact C.
Qed.

Lemma has_key_set_same (V : Type) k (v : V) d : has_key k (dict_set k v d) = true.
Proof. unfold has_key. now rewrite dict_get_set. Qed.

Lemma has_key_set_other (V : Type) k k' (v : V) d :
  has_key k d = true -> has_key k (dict_set k' v d) = true.
Proof.
  unfold has_key. induction d as [|[k0 v0] d IH]; simpl; [discriminate|].
  destruct (String.eqb k0 k') eqn:E; simpl.
  - apply String.eqb_eq in E. subst k0.
    destruct (String.eqb k' k); [reflexivity | auto].
  - destruct (String.eqb k0 k); [reflexivity | exact IH].
Qed.

(** Assigning to a key that is there adds no entry. *)
Lemma dict_set_length (V : Type) k (v : V) d :
  has_key k d = true -> List.length (dict_set k v d) = List.length d.
Proof.
  unfold has_key. induction d as [|[k0 v0] d IH]; simpl; [discriminate|].
  destruct (String.eqb k0 k); simpl; [reflexivity|].
  intros H. now rewrite (IH H).
Qed.

Lemma report_loop_keys ps : forall seen total w seen' tot w' t,
  report_loop env ps seen total w = (Ok (seen', tot), w', t) ->
  (forall k, has_key k seen = true -> has_key k seen' = true) /\
  (forall part, In part ps -> has_key (name part) seen' = true).
Proof.
  induction ps as [|part ps IH]; intros seen total w seen' tot w' t; simpl.
  - unfold ret. intros [= <- <- <- <-]. split; [auto | intros ? []].
  - unfold bind.
    destruct (best_price env part w) as [[[p|x] w1] t1]; [|discriminate].
    destruct (report_loop env ps (dict_set (name part) p seen) _ w1)
      as [[[[s2 tot2]|x] w2] t2] eqn:R; [|discriminate].
    intros [= <- <- <- <-].
    destruct (IH _ _ _ _ _ _ _ R) as [K P].
    split.
    + intros k H. apply K. now apply has_key_set_other.
    + intros q [<-|I]; [|now apply P].
      apply K. apply has_key_set_same.
Qed.

Lemma dict_set_labels (V : Type) k (v : V) d :
  has_key k d = true -> map fst (dict_set k v d) = map fst d.
Proof.
  unfold has_key. induction d as [|[k0 v0] d IH]; simpl; [discriminate|].
  destruct (String.eqb k0 k) eqn:E; simpl.
  - apply String.eqb_eq in E. now subst k0.
  - intros H. now rewrite (IH H).
Qed.

Lemma dict_get_set_other (V : Type) k k' (v : V) d :
  k <> k' -> dict_get k (dict_set k' v d) = dict_get k d.
Proof.
  intros N. induction d as [|[k0 v0] d IH]; simpl.
  - assert (X : String.eqb k' k = false) by (apply String.eqb_neq; congruence).
    now rewrite X.
  - destruct (String.eqb k0 k') eqn:E; simpl.
    + apply String.eqb_eq in E. subst k0.
      assert (X : String.eqb k' k = false)
        by (apply String.eqb_neq; congruence).
      now rewrite X.
    + destruct (String.eqb k0 k); [reflexivity | exact IH].
Qed.

(** X13. The row [Total] is assigned by label.  When the best prices are
    obtained and a part of the build is itself named [Total], the frame that
    is written is [self.prices] with the value at [Total] replaced by the
    computed total: it has the same labels in the same order, no row is
    added, the row [Total] holds the sum instead of the price of that part,
    and every other row is as in [self.prices]. *)
Theorem part_named_Total_is_overwritten b file w bs w' t part :
  best_prices env (parts b) w = (Ok bs, w', t) ->
  In part (parts b) ->
  name part = "Total"%string ->
  let total := fold_left add_resolved bs 0%float in
  exists seen,
    report_build env b file w
    = (Ok (mkBuild (build_name b) (parts b) seen), w',
       Stdout (Line ("Price breakdown for " ++ build_name b ++ ":"))
       :: t ++ [Stdout (Prices seen);
                ToCsv file (dict_set "Total" total seen)]) /\
    has_key "Total" seen = true /\
    map fst (dict_set "Total" total seen) = map fst seen /\
    dict_get "Total" (dict_set "Total" total seen) = Some total /\
    forall k, k <> "Total"%string ->
              dict_get k (dict_set "Total" total seen) = dict_get k seen.
Proof.
  intros B I N total.
  destruct (report_loop_total env (parts b) (build_prices b) 0%float w bs w' t B)
    as [seen E].
  destruct (report_loop_keys _ _ _ _ _ _ _ _ E) as [_ P].
  specialize (P part I). rewrite N in P.
  exists seen. split.
  { unfold report_build, bind, print, emit, ret. cbn. rewrite E. cbn.
    reflexivity. }
  split; [exact P|].
  split; [now apply dict_set_labels|].
  split; [apply dict_get_set|].
  intros k K. now apply dict_get_set_other.
Qed.

End ReportRuns.

(** ** The extractors *)

Section Extractors.

Variable env : Env.

(** X11. A timeout of the explicit wait changes nothing but the output: with
    every wait timing out, the dispatch gives the same result, exception
    included, and the same state as without, for every domain. *)
Theorem timeout_is_swallowed name d u w :
  result_of (fetch_price (timed_out env) name d u w)
  = result_of (fetch_price env name d u w) /\
  world_of (fetch_price (timed_out env) name d u w)
  = world_of (fetch_price env name d u w).
Proof.
  unfold fetch_price, get_microcenter_price, get_amazon_price,
    float_of_attribute, float_of_str, bind, navigate, print, emit, ret, raise,
    result_of, world_of.
  destruct (String.eqb d "microcenter"); [|destruct (String.eqb d "amazon")];
    cbn; [| |now split].
  - destruct (pricing_present (browse env (loads w) u));
      destruct (pricing_content (browse env (loads w) u)) as [|[c|] cs];
      cbn; try (now split); destruct (py_float env c); now split.
  - destruct (fraction_present (browse env (loads w) u));
      destruct (price_whole (browse env (loads w) u)) as [|a ws];
      destruct (price_frac (browse env (loads w) u)) as [|b fs];
      cbn; try (now split); destruct (py_float env _); now split.
Qed.

(** X12. Each extractor navigates exactly once, to the URL it was given, and
    does nothing else to the state: the table and the clock are untouched,
    also when [float] raises.  Besides the navigation its trace has at most
    the message of the timeout.  Without an element to read it returns
    [np.inf], for Amazon as soon as one of the two elements is missing; and
    [get_amazon_price(None)] returns [np.inf] without navigating. *)
Theorem extractors_navigate_once u w :
  let after := mkWorld (prices w) (ticks w) (S (loads w)) in
  let pg := browse env (loads w) u in
  (world_of (get_microcenter_price env u w) = after /\
   trace_of (get_microcenter_price env u w)
   = Navigate u :: (if pricing_present pg then [] else [Stdout TimeoutMessage]) /\
   (pricing_content pg = [] ->
    result_of (get_microcenter_price env u w) = Ok inf)) /\
  (world_of (get_amazon_price env (Some u) w) = after /\
   trace_of (get_amazon_price env (Some u) w)
   = Navigate u :: (if fraction_present pg then [] else [Stdout TimeoutMessage]) /\
   (price_whole pg = [] \/ price_frac pg = [] ->
    result_of (get_amazon_price env (Some u) w) = Ok inf)) /\
  get_amazon_price env None w = (Ok inf, w, []).
Proof.
  cbv zeta.
  unfold get_microcenter_price, get_amazon_price,
    float_of_attribute, float_of_str, bind, navigate, print, emit, ret, raise,
    result_of, world_of, trace_of.
  cbn. split; [|split; [|reflexivity]].
  - destruct (pricing_present (browse env (loads w) u));
      destruct (pricing_content (browse env (loads w) u)) as [|[c|] cs];
      cbn; try (repeat split; congruence);
      destruct (py_float env c); repeat split; congruence.
  - destruct (fraction_present (browse env (loads w) u));
      destruct (price_whole (browse env (loads w) u)) as [|a ws];
      destruct (price_frac (browse env (loads w) u)) as [|b fs];
      cbn; try (repeat split; intuition congruence);
      destruct (py_float env _); repeat split; intuition congruence.
Qed.

End Extractors.

(** ** The properties at concrete inputs *)

Lemma get_pricing_returns_in_two_ways_witness :
  get_pricing example_env "cpu" (Some example_cpu) cached_world
  = (Ok 7.5%float, tick cached_world, [still_recent "cpu" "amazon"]) /\
  ((Some example_cpu = None /\ 7.5%float = inf /\
    tick cached_world = cached_world /\
    [still_recent "cpu" "amazon"] = []) \/
   (exists url d r,
       Some example_cpu = Some url /\
       domain_of url = Ok d /\
       Sql.lookup url (prices cached_world) = Some r /\
       (clock example_env (ticks cached_world) - Sql.time r <= 86400)%Z /\
       7.5%float = Sql.price r /\ tick cached_world = tick cached_world /\
       [still_recent "cpu" "amazon"] = [still_recent "cpu" d])).
Proof.
  split; [vm_compute; reflexivity|].
  apply (get_pricing_returns_in_two_ways example_env "cpu" (Some example_cpu)
           cached_world).
  vm_compute; reflexivity.
Defined.

Lemma no_fresh_record_never_returns_witness :
  domain_of example_gone = Ok "microcenter"%string /\
  fresh_hit example_env example_gone empty_world = false /\
  get_pricing example_env "gpu" (Some example_gone) empty_world
  = (Raise AttributeError, mkWorld [] 2 1,
     [Navigate example_gone; Stdout TimeoutMessage]) /\
  extracts (trace_of (get_pricing example_env "gpu" (Some example_gone)
                                  empty_world)) = true.
Proof.
  split; [vm_compute; reflexivity|].
  split; [vm_compute; reflexivity|].
  destruct (no_fresh_record_never_returns example_env "gpu" example_gone
              "microcenter" empty_world) as (R & _ & E & _);
    try (vm_compute; reflexivity).
  split; [|exact E]. rewrite R. vm_compute. reflexivity.
Defined.

Lemma best_price_returns_from_cache_only_witness :
  best_price example_env example_product cached_world
  = (Ok 7.5%float, mkWorld (prices cached_world) 2 0,
     [still_recent (name example_product) "microcenter";
      still_recent (name example_product) "amazon";
      best_message example_product 7.5]) /\
  loads (mkWorld (prices cached_world) 2 0) = loads cached_world /\
  extracts [still_recent (name example_product) "microcenter";
            still_recent (name example_product) "amazon";
            best_message example_product 7.5] = false /\
  is_nan 7.5 = false.
Proof.
  split; [vm_compute; reflexivity|].
  destruct (best_price_returns_from_cache_only example_env example_product
              cached_world 7.5%float (mkWorld (prices cached_world) 2 0)
              [still_recent (name example_product) "microcenter";
               still_recent (name example_product) "amazon";
               best_message example_product 7.5]) as (L & _ & E & N & _).
  - vm_compute; reflexivity.
  - split; [exact L|]. split; [exact E | exact N].
Defined.

Lemma best_price_stops_at_first_exception_witness :
  values (links mixed_product)
  = [Some example_gpu] ++ Some example_other :: [Some example_cpu] /\
  obtained_prices example_env (name mixed_product) [Some example_gpu] five_world
  = (Ok [5%float], tick five_world,
     [still_recent (name mixed_product) "microcenter"]) /\
  get_pricing example_env (name mixed_product) (Some example_other)
              (tick five_world)
  = (Raise AttributeError, mkWorld (prices five_world) 3 0,
     [could_not_get (name mixed_product) "newegg"]) /\
  best_price example_env mixed_product five_world
  = (Raise AttributeError, mkWorld (prices five_world) 3 0,
     [still_recent (name mixed_product) "microcenter"]
     ++ [could_not_get (name mixed_product) "newegg"]).
Proof.
  split; [vm_compute; reflexivity|].
  split; [vm_compute; reflexivity|].
  split; [vm_compute; reflexivity|].
  apply (best_price_stops_at_first_exception example_env mixed_product
           [Some example_gpu] (Some example_other) [Some example_cpu]
           five_world [5%float] (tick five_world)
           [still_recent (name mixed_product) "microcenter"]).
  - vm_compute; reflexivity.
  - vm_compute; reflexivity.
  - vm_compute; reflexivity.
Defined.

Lemma best_price_without_urls_witness :
  (forall l, In l (values (links unlisted_product)) -> l = None) /\
  best_price example_env unlisted_product cached_world
  = (Ok inf, cached_world, [best_message unlisted_product inf]).
Proof.
  assert (N : forall l, In l (values (links unlisted_product)) -> l = None).
  { intros l [<-|[<-|[]]]; reflexivity. }
  split; [exact N|].
  apply (best_price_without_urls example_env unlisted_product cached_world N).
Defined.

Lemma report_is_not_written_on_failure_witness :
  best_prices example_env (parts unavailable_build) empty_world
  = (Raise AttributeError, mkWorld [] 2 0,
     [could_not_get "AMD Ryzen 7" "newegg"]) /\
  report_build example_env unavailable_build "build.csv" empty_world
  = (Raise AttributeError, mkWorld [] 2 0,
     Stdout (Line ("Price breakdown for " ++ build_name unavailable_build ++ ":"))
     :: [could_not_get "AMD Ryzen 7" "newegg"]) /\
  writes_csv (trace_of (report_build example_env unavailable_build "build.csv"
                                     empty_world)) = false.
Proof.
  split; [vm_compute; reflexivity|].
  apply (report_is_not_written_on_failure example_env unavailable_build
           "build.csv" empty_world).
  vm_compute; reflexivity.
Defined.

Lemma part_named_Total_is_overwritten_witness :
  best_prices example_env (parts total_build) cached_world
  = (Ok [10; 7.5]%float, mkWorld (prices cached_world) 2 0,
     [still_recent "Total" "microcenter";
      Stdout (Fmt "Best price for Total is " 10 "");
      still_recent "Case" "amazon";
      Stdout (Fmt "Best price for Case is " 7.5 "")]) /\
  In (mkProduct "Total" [("microcenter"%string, Some example_gpu)])
     (parts total_build) /\
  fold_left add_resolved [10; 7.5]%float 0%float = 17.5%float /\
  last (trace_of (report_build example_env total_build "build.csv"
                               cached_world))
       (Stdout TimeoutMessage)
  = ToCsv "build.csv" [("Total"%string, 17.5%float); ("Case"%string, 7.5%float)] /\
  exists seen,
    report_build example_env total_build "build.csv" cached_world
    = (Ok (mkBuild (build_name total_build) (parts total_build) seen),
       mkWorld (prices cached_world) 2 0,
       Stdout (Line ("Price breakdown for " ++ build_name total_build ++ ":"))
       :: [still_recent "Total" "microcenter";
           Stdout (Fmt "Best price for Total is " 10 "");
           still_recent "Case" "amazon";
           Stdout (Fmt "Best price for Case is " 7.5 "")]
       ++ [Stdout (Prices seen);
           ToCsv "build.csv"
                 (dict_set "Total" (fold_left add_resolved [10; 7.5]%float 0%float)
                           seen)]) /\
    has_key "Total" seen = true /\
    map fst (dict_set "Total" (fold_left add_resolved [10; 7.5]%float 0%float)
                      seen) = map fst seen /\
    dict_get "Total"
             (dict_set "Total" (fold_left add_resolved [10; 7.5]%float 0%float)
                       seen)
    = Some (fold_left add_resolved [10; 7.5]%float 0%float) /\
    forall k, k <> "Total"%string ->
              dict_get k (dict_set "Total"
                            (fold_left add_resolved [10; 7.5]%float 0%float) seen)
              = dict_get k seen.
Proof.
  split; [vm_compute; reflexivity|].
  split; [now left|].
  split; [vm_compute; reflexivity|].
  split; [vm_compute; reflexivity|].
  apply (part_named_Total_is_overwritten example_env total_build "build.csv"
           cached_world [10; 7.5]%float (mkWorld (prices cached_world) 2 0) _
           (mkProduct "Total" [("microcenter"%string, Some example_gpu)])).
  - vm_compute; reflexivity.
  - now left.
  - reflexivity.
Defined.

(** ** Successive requests *)

Section Successive.

Variable env : Env.


End Successive.

